(** * MandiGPT: commodity price service and crop suitability

    A shallow embedding of [free_commodity_service.py] (class
    [FreeCommodityService]) and of [agricultural_database.py] (method
    [get_crop_suitability]), followed by the properties of the
    specification that were checked against it.

    Conventions of the embedding.
    - Python numbers (the [int]s and [float]s read from the JSON tables and
      computed from them) are exact rationals [Q]; equality of numbers is
      [Qeq] ([==]).  The rounding error of binary64 arithmetic is not part of
      the model.
    - Python dictionaries with a fixed literal content or used as plain
      look-up tables are [gmap string _]; the price catalogue keeps the order
      of its keys (it is iterated), so it is an association list.
    - Exceptions are values: a computation returns [Ok v] or [Raise e], and
      [try ... except Exception] is [try_except].
    - The outside world (HTTP answers, the random generator, the clock) is an
      oracle indexed by the number of effects performed so far. *)

From Stdlib Require Import ZArith QArith Qround Qabs Qminmax Lia Lqa.
From stdpp Require Import gmap strings list.

Open Scope Q_scope.

(** ** The Python runtime the code relies on *)

Module Py.

Inductive exn : Set :=
| KeyError | IndexError | TypeError | AttributeError | ValueError
| ValidationError | RequestException.

Inductive result (A : Type) : Type :=
| Ok (a : A)
| Raise (e : exn).
Global Arguments Ok {A} a.
Global Arguments Raise {A} e.

(** A value decoded by [response.json()]. A decoded object is the list of
    the items of the [dict] (its keys are distinct); [obj_get] looks a key
    up in it. *)
#[local] Unset Elimination Schemes.
Inductive json : Type :=
| JNull
| JBool (b : bool)
| JNum (q : Q)
| JStr (s : string)
| JArr (l : list json)
| JObj (l : list (string * json)).
#[local] Set Elimination Schemes.

(** What [session.get(url, timeout=10)] can produce: an exception of
    [requests] (connection error, timeout), or a response with a status
    code whose body decodes to JSON ([Some]) or does not ([None]). *)
Inductive http_outcome : Type :=
| HttpError
| HttpResponse (status_code : Z) (body : option json).

Record World : Type := {
  http_get : nat -> string -> http_outcome;
  random : nat -> Q;            (* random.random(), a draw of [0, 1) *)
  now : nat -> Z;               (* datetime.now(), in days since the epoch *)
  float_of_str : string -> option Q   (* float(s) on a str *)
}.

(** Computations: they read the world at the current tick, advance the
    tick, and may raise. *)
Definition M (A : Type) : Type := nat -> result A * nat.

Definition ret {A} (a : A) : M A := fun t => (Ok a, t).
Definition raise {A} (e : exn) : M A := fun t => (Raise e, t).
Definition bind {A B} (m : M A) (k : A -> M B) : M B :=
  fun t => match m t with
           | (Ok a, t') => k a t'
           | (Raise e, t') => (Raise e, t')
           end.
Definition try_except {A} (m : M A) (handler : exn -> M A) : M A :=
  fun t => match m t with
           | (Ok a, t') => (Ok a, t')
           | (Raise e, t') => handler e t'
           end.
Definition lift {A} (r : result A) : M A := fun t => (r, t).

Global Instance M_ret : MRet M := @ret.
Global Instance M_bind : MBind M := fun A B k m => bind m k.

(** [bool(x)] on strings and on decoded JSON. *)
Definition str_truthy (s : string) : bool :=
  match s with EmptyString => false | String _ _ => true end.

Definition truthy (v : json) : bool :=
  match v with
  | JNull => false
  | JBool b => b
  | JNum q => negb (Qeq_bool q 0)
  | JStr s => str_truthy s
  | JArr l => match l with [] => false | _ :: _ => true end
  | JObj l => match l with [] => false | _ :: _ => true end
  end.

Fixpoint assoc {A} (k : string) (l : list (string * A)) : option A :=
  match l with
  | [] => None
  | (k', v) :: r => if String.eqb k k' then Some v else assoc k r
  end.

(** [v.get(key, dflt)]: only a [dict] has the method. *)
Definition obj_get (v : json) (key : string) (dflt : json) : result json :=
  match v with
  | JObj l => Ok (default dflt (assoc key l))
  | _ => Raise AttributeError
  end.

(** [v[0]] *)
Definition getitem0 (v : json) : result json :=
  match v with
  | JArr (x :: _) => Ok x
  | JArr [] => Raise IndexError
  | JStr (String c _) => Ok (JStr (String c EmptyString))
  | JStr EmptyString => Raise IndexError
  | JObj _ => Raise KeyError         (* the keys of a decoded object are str *)
  | JNull | JBool _ | JNum _ => Raise TypeError
  end.

(** [float(v)] *)
Definition to_float (w : World) (v : json) : result Q :=
  match v with
  | JNum q => Ok q
  | JBool b => Ok (if b then 1 else 0)
  | JStr s => match float_of_str w s with
              | Some q => Ok q
              | None => Raise ValueError
              end
  | JNull | JArr _ | JObj _ => Raise TypeError
  end.

(** [max(a, b)] and [min(a, b)]: the first argument wins a tie. *)
Definition Qlt_bool (a b : Q) : bool := negb (Qle_bool b a).
Definition max (a b : Q) : Q := if Qlt_bool a b then b else a.
Definition min (a b : Q) : Q := if Qlt_bool b a then b else a.

(** [round(x)] to an integer, halves to the even neighbour. *)
Definition round_half_even (x : Q) : Z :=
  let f := Qfloor x in
  let r := x - inject_Z f in
  match Qcompare r (1 # 2) with
  | Lt => f
  | Gt => (f + 1)%Z
  | Eq => if Z.even f then f else (f + 1)%Z
  end.

(** [round(x, 2)] *)
Definition round2 (x : Q) : Q := inject_Z (round_half_even (x * 100)) / 100.

(** [sum(xs)]: from 0, left to right. *)
Definition sum_Z (xs : list Z) : Z := fold_left Z.add xs 0%Z.
Definition sum_Q (xs : list Q) : Q := fold_left Qplus xs 0.

(** [range(n)] *)
Definition range (n : Z) : list Z := map Z.of_nat (seq 0 (Z.to_nat n)).

(** [max(xs, key=key)] and [min(xs, key=key)] on a list that starts with
    [best]: the first extremal element is kept. *)
Fixpoint max_by {A} (key : A -> Q) (best : A) (xs : list A) : A :=
  match xs with
  | [] => best
  | x :: r => max_by key (if Qlt_bool (key best) (key x) then x else best) r
  end.
Fixpoint min_by {A} (key : A -> Q) (best : A) (xs : list A) : A :=
  match xs with
  | [] => best
  | x :: r => min_by key (if Qlt_bool (key x) (key best) then x else best) r
  end.

(** [xs[-1]] *)
Definition getitem_last {A} (xs : list A) : result A :=
  match last xs with
  | Some x => Ok x
  | None => Raise IndexError
  end.

(** [xs[0]] *)
Definition getitem_first {A} (xs : list A) : result A :=
  match xs with
  | x :: _ => Ok x
  | [] => Raise IndexError
  end.

End Py.
Import Py.

(** ** The data model *)

(** Modelled from the spec: [models.py] ([Location], [CommodityPrice]) is not
    among the sources. The fields are those of the data model of the
    specification and of the constructor calls in the service; the
    constructor accepts a market location only when it is a string. *)
Record Location : Type := { state : string }.

Record CommodityPrice : Type := {
  commodity_name : string;
  current_price : Q;
  price_trend : string;
  market_location : string;
  date : Z
}.

Definition CommodityPrice_init (commodity_name : string) (current_price : Q)
    (price_trend : string) (market_location : json) (date : Z)
  : result CommodityPrice :=
  match market_location with
  | JStr m => Ok {| commodity_name := commodity_name;
                    current_price := current_price;
                    price_trend := price_trend;
                    market_location := m;
                    date := date |}
  | _ => Raise ValidationError
  end.

(** An entry of [mock_prices.json]. *)
Module PriceData.
Record t : Type := {
  current_price : Q;
  trend : string;
  markets : list string;
  unit : string
}.
End PriceData.

(** The dictionary returned by [get_price_trends]. *)
Module Trends.
Record point : Type := { date : Z; price : Q }.
Record t : Type := {
  commodity : string;
  trend : string;
  price_history : list point;
  current_price : Q;
  price_change : Q;
  source : string
}.
Inductive result : Type :=
| Error (error : string)
| Found (r : t).
End Trends.

(** The dictionary returned by [get_market_analysis]. *)
Module Analysis.
Record distribution : Type := { increasing : Z; decreasing : Z; stable : Z }.
Record performer : Type := { commodity : string; price : Q; trend : string }.
Record t : Type := {
  market_sentiment : string;
  average_price : Q;
  trend_distribution : distribution;
  best_performing : performer;
  worst_performing : performer;
  market_recommendation : string;
  data_source : string
}.
Inductive result : Type :=
| Error (error : string)
| Summary (a : t).
End Analysis.

(** ** [free_commodity_service.py] *)

Module FreeCommodityService.

(** The literal of [_fetch_agmarknet_price]. *)
Definition commodity_codes : gmap string string :=
  list_to_map [
    ("Rice", "1101"); ("Wheat", "1102"); ("Maize", "1103");
    ("Sugarcane", "1104"); ("Cotton", "1105"); ("Soybean", "1106");
    ("Groundnut", "1107"); ("Potato", "1108"); ("Onion", "1109");
    ("Tomato", "1110") ]%string.

(** The address that [_fetch_agmarknet_price] requests for a code. *)
Definition agmarknet_url (commodity_code : string) : string :=
  ("https://agmarknet.gov.in/api/price/commodity/" ++ commodity_code)%string.

(** The literal of [_find_closest_market]. *)
Definition state_market_mapping : gmap string string :=
  list_to_map [
    ("Delhi", "Delhi"); ("Haryana", "Delhi"); ("Punjab", "Punjab");
    ("UP", "UP"); ("Uttar Pradesh", "UP"); ("Maharashtra", "Mumbai");
    ("Gujarat", "Gujarat"); ("Karnataka", "Karnataka");
    ("Tamil Nadu", "Chennai"); ("West Bengal", "Kolkata");
    ("Bihar", "Bihar"); ("Rajasthan", "Rajasthan");
    ("Madhya Pradesh", "Madhya Pradesh");
    ("Andhra Pradesh", "Andhra Pradesh"); ("Telangana", "Telangana");
    ("Kerala", "Kerala"); ("Odisha", "Odisha"); ("Assam", "Assam") ]%string.

Definition _find_closest_market (location : Location) (markets : list string)
  : string :=
  default (match markets with
           | m :: _ => m
           | [] => state location
           end)
          (state_market_mapping !! state location).

Section service.

(** [self]: the session (through the world it talks to) and the catalogue
    loaded from [mock_prices.json]: the items of the [dict], in the order of
    the file. *)
Context (w : World) (mock_prices : list (string * PriceData.t)).

(** *** Effects *)

Definition session_get (url : string) : M (Z * option json) :=
  fun t => match http_get w t url with
           | HttpError => (Raise RequestException, S t)
           | HttpResponse status_code body => (Ok (status_code, body), S t)
           end.

Definition response_json (body : option json) : result json :=
  match body with
  | Some data => Ok data
  | None => Raise ValueError
  end.

(** [random.uniform(a, b)] is [a + (b - a) * random()]. *)
Definition random_uniform (a b : Q) : M Q :=
  fun t => (Ok (a + (b - a) * random w t), S t).

Definition datetime_now : M Z := fun t => (Ok (now w t), S t).

(** *** Price acquisition *)

Definition _fetch_agmarknet_price (commodity : string) (location : Location)
  : M (option CommodityPrice) :=
  try_except
    (match commodity_codes !! commodity with
     | None => ret None
     | Some commodity_code =>
       if negb (str_truthy commodity_code) then ret None else
       let url := ("https://agmarknet.gov.in/api/price/commodity/"
                     ++ commodity_code)%string in
       response ← session_get url;
       if (response.1 =? 200)%Z then
         data ← lift (response_json response.2);
         prices ← lift (obj_get data "price" (JArr []));
         if truthy prices then
           latest_price ← lift (getitem0 prices);
           raw ← lift (obj_get latest_price "price" (JNum 0));
           price ← lift (to_float w raw);
           market ← lift (obj_get latest_price "market" (JStr (state location)));
           today ← datetime_now;
           p ← lift (CommodityPrice_init commodity price "stable" market today);
           ret (Some p)
         else ret None
       else ret None
     end)
    (fun _ => ret None).

Definition _fetch_other_sources (commodity : string) (location : Location)
  : M (option CommodityPrice) :=
  try_except (ret None) (fun _ => ret None).

Definition _fetch_real_price (commodity : string) (location : Location)
  : M (option CommodityPrice) :=
  try_except
    (agmarknet_price ← _fetch_agmarknet_price commodity location;
     match agmarknet_price with
     | Some p => ret (Some p)
     | None =>
       other_price ← _fetch_other_sources commodity location;
       match other_price with
       | Some p => ret (Some p)
       | None => ret None
       end
     end)
    (fun _ => ret None).

Definition price_data_of (commodity : string) (location : Location)
  : PriceData.t :=
  match assoc commodity mock_prices with
  | None => {| PriceData.current_price := 2000;
               PriceData.trend := "stable";
               PriceData.markets := [state location];
               PriceData.unit := "quintal" |}
  | Some price_data => price_data
  end.

Definition _create_mock_price (commodity : string) (location : Location)
  : M CommodityPrice :=
  let price_data := price_data_of commodity location in
  let closest_market :=
    _find_closest_market location (PriceData.markets price_data) in
  let base_price := PriceData.current_price price_data in
  let variation := base_price * 0.1 in
  delta ← random_uniform (- variation) variation;
  let current_price := base_price + delta in
  today ← datetime_now;
  ret {| commodity_name := commodity;
         current_price := round2 current_price;
         price_trend := PriceData.trend price_data;
         market_location := closest_market;
         date := today |}.

Fixpoint get_commodity_prices_loop (location : Location)
    (commodities : list string) (prices : list CommodityPrice)
  : M (list CommodityPrice) :=
  match commodities with
  | [] => ret prices
  | commodity :: rest =>
    prices' ← try_except
      (real_price ← _fetch_real_price commodity location;
       match real_price with
       | Some p => ret (prices ++ [p])
       | None =>
         mock_price ← _create_mock_price commodity location;
         ret (prices ++ [mock_price])
       end)
      (fun _ =>
         mock_price ← _create_mock_price commodity location;
         ret (prices ++ [mock_price]));
    get_commodity_prices_loop location rest prices'
  end.

Definition get_commodity_prices (location : Location)
    (commodities : option (list string)) : M (list CommodityPrice) :=
  let commodities :=
    match commodities with
    | None => map fst mock_prices
    | Some l => l
    end in
  get_commodity_prices_loop location commodities [].

(** Where an entry of the result of [get_commodity_prices] comes from: it
    is the price of [commodity] that an external source returned, or, when
    no source returned one, the synthetic price of [commodity]. *)
Definition sourced (location : Location) (commodity : string)
    (p : CommodityPrice) : Prop :=
  commodity_name p = commodity
  /\ ((exists t t', _fetch_real_price commodity location t
                    = (Ok (Some p), t'))
      \/ (exists t t' t'',
            _fetch_real_price commodity location t = (Ok None, t')
            /\ _create_mock_price commodity location t' = (Ok p, t''))).

(** *** Trends *)

(** The local [price] of the loop of [get_price_trends], before the floor. *)
Definition trend_price (base_price : Q) (trend : string) (i : Z) : Q :=
  if String.eqb trend "increasing" then
    base_price + inject_Z (i * 15) + inject_Z (i * i) * 0.5
  else if String.eqb trend "decreasing" then
    base_price - inject_Z (i * 8) + inject_Z (i * i) * 0.2
  else
    base_price + inject_Z (if (i mod 2 =? 0)%Z then i * 5 else - i * 3).

(** The loop [for i in range(days)]. The date of an entry is the day
    [days - i] days before the current one (its rendering as a
    year-month-day string is not modelled). *)
Fixpoint get_price_trends_loop (base_price : Q) (trend : string) (days : Z)
    (indices : list Z) (prices : list Trends.point) : M (list Trends.point) :=
  match indices with
  | [] => ret prices
  | i :: rest =>
    let price := trend_price base_price trend i in
    today ← datetime_now;
    get_price_trends_loop base_price trend days rest
      (prices ++ [ {| Trends.date := (today - (days - i))%Z;
                      Trends.price := Py.max price (base_price * 0.5) |} ])
  end.

Definition get_price_trends (commodity : string) (days : Z)
  : M Trends.result :=
  match assoc commodity mock_prices with
  | None => ret (Trends.Error "Commodity not found")
  | Some entry =>
    let base_price := PriceData.current_price entry in
    let trend := PriceData.trend entry in
    prices ← get_price_trends_loop base_price trend days (range days) [];
    newest ← lift (getitem_last prices);
    oldest ← lift (getitem_first prices);
    ret (Trends.Found
           {| Trends.commodity := commodity;
              Trends.trend := trend;
              Trends.price_history := prices;
              Trends.current_price := base_price;
              Trends.price_change := Trends.price newest - Trends.price oldest;
              Trends.source := "Free Commodity Service" |})
  end.

End service.

(** *** Market analysis *)

Definition _calculate_market_sentiment (increasing decreasing stable : Z)
  : string :=
  let total := (increasing + decreasing + stable)%Z in
  if (total =? 0)%Z then "Neutral" else
  let increasing_pct := inject_Z increasing / inject_Z total * 100 in
  let decreasing_pct := inject_Z decreasing / inject_Z total * 100 in
  if Qlt_bool 60 increasing_pct then "Bullish"
  else if Qlt_bool 60 decreasing_pct then "Bearish"
  else "Neutral".

Definition _get_market_recommendation (increasing decreasing total : Z)
  : string :=
  if (total =? 0)%Z then "No data available" else
  if Qlt_bool (inject_Z total * 0.6) (inject_Z increasing) then
    "Market is showing strong upward trends - good time for planting high-value crops"
  else if Qlt_bool (inject_Z total * 0.6) (inject_Z decreasing) then
    "Market is declining - consider diversifying or focusing on staple crops"
  else
    "Market is stable - focus on crops with consistent demand".

(** [sum(1 for p in prices if p.price_trend == label)] *)
Definition count_trend (label : string) (prices : list CommodityPrice) : Z :=
  sum_Z (map (fun _ => 1%Z)
             (filter (fun p => String.eqb (price_trend p) label = true) prices)).

Definition performer_of (p : CommodityPrice) : Analysis.performer :=
  {| Analysis.commodity := commodity_name p;
     Analysis.price := current_price p;
     Analysis.trend := price_trend p |}.

Definition get_market_analysis (prices : list CommodityPrice)
  : Analysis.result :=
  match prices with
  | [] => Analysis.Error "No price data available"
  | first :: others =>
    let total_commodities := Z.of_nat (length prices) in
    let increasing_trends := count_trend "increasing" prices in
    let decreasing_trends := count_trend "decreasing" prices in
    let stable_trends := count_trend "stable" prices in
    let avg_price :=
      sum_Q (map current_price prices) / inject_Z (Z.of_nat (length prices)) in
    let best_commodity := max_by current_price first others in
    let worst_commodity := min_by current_price first others in
    Analysis.Summary
      {| Analysis.market_sentiment :=
           _calculate_market_sentiment
             increasing_trends decreasing_trends stable_trends;
         Analysis.average_price := round2 avg_price;
         Analysis.trend_distribution :=
           {| Analysis.increasing := increasing_trends;
              Analysis.decreasing := decreasing_trends;
              Analysis.stable := stable_trends |};
         Analysis.best_performing := performer_of best_commodity;
         Analysis.worst_performing := performer_of worst_commodity;
         Analysis.market_recommendation :=
           _get_market_recommendation
             increasing_trends decreasing_trends total_commodities;
         Analysis.data_source := "Free APIs + Realistic Mock Data" |}
  end.

End FreeCommodityService.

(** ** [agricultural_database.py] *)

Module IndianAgriculturalDatabase.

(** The members of [models.SoilType] that the regional table names. *)
Inductive SoilType : Set := ALLUVIAL | BLACK | RED.

Record RegionalInfo : Type := {
  soil_type : SoilType;
  climate : string;
  major_crops : list string;
  irrigation_coverage : Z;
  average_rainfall : Z
}.

(** The literal of [_initialize_regional_data]. *)
Definition regional_data : gmap string RegionalInfo :=
  list_to_map [
    ("Punjab", {| soil_type := ALLUVIAL; climate := "Semi-arid";
        major_crops := ["Wheat"; "Rice"; "Cotton"; "Sugarcane"];
        irrigation_coverage := 95; average_rainfall := 500 |});
    ("Haryana", {| soil_type := ALLUVIAL; climate := "Semi-arid";
        major_crops := ["Wheat"; "Rice"; "Cotton"; "Sugarcane"];
        irrigation_coverage := 90; average_rainfall := 600 |});
    ("Uttar Pradesh", {| soil_type := ALLUVIAL; climate := "Tropical";
        major_crops := ["Wheat"; "Rice"; "Sugarcane"; "Potato"];
        irrigation_coverage := 70; average_rainfall := 1000 |});
    ("Maharashtra", {| soil_type := BLACK; climate := "Tropical";
        major_crops := ["Sugarcane"; "Cotton"; "Soybean"; "Onion"];
        irrigation_coverage := 60; average_rainfall := 800 |});
    ("Gujarat", {| soil_type := BLACK; climate := "Arid";
        major_crops := ["Cotton"; "Groundnut"; "Wheat"; "Onion"];
        irrigation_coverage := 50; average_rainfall := 400 |});
    ("Karnataka", {| soil_type := RED; climate := "Tropical";
        major_crops := ["Maize"; "Sugarcane"; "Tomato"; "Onion"];
        irrigation_coverage := 40; average_rainfall := 1200 |});
    ("Tamil Nadu", {| soil_type := RED; climate := "Tropical";
        major_crops := ["Rice"; "Sugarcane"; "Groundnut"; "Cotton"];
        irrigation_coverage := 80; average_rainfall := 1000 |});
    ("West Bengal", {| soil_type := ALLUVIAL; climate := "Tropical";
        major_crops := ["Rice"; "Potato"; "Jute"; "Tea"];
        irrigation_coverage := 85; average_rainfall := 1500 |}) ]%string.

(** The keys of an entry of [crop_data.json] that [get_crop_suitability]
    reads; a range is the pair of its two bounds. *)
Record CropInfo : Type := {
  temperature_range : Q * Q;
  rainfall_requirement : Q * Q;
  humidity_requirement : Q * Q
}.

(** [x in xs] on a list of strings. *)
Definition contains (x : string) (xs : list string) : bool :=
  existsb (String.eqb x) xs.

(** [range[0] <= x <= range[1]] *)
Definition within (range : Q * Q) (x : Q) : bool :=
  Qle_bool range.1 x && Qle_bool x range.2.

Definition get_crop_suitability (crop_data : gmap string CropInfo)
    (crop : string) (location : string) (weather_conditions : gmap string Q)
  : Q :=
  match crop_data !! crop with
  | None => 0
  | Some crop_info =>
    let score := 0 in
    let factors := 0%Z in
    (* Temperature suitability *)
    let temp := default 25 (weather_conditions !! "temperature") in
    let temp_range := temperature_range crop_info in
    let score :=
      if within temp_range temp then score + 1
      else
        let temp_diff :=
          Py.min (Qabs (temp - temp_range.1)) (Qabs (temp - temp_range.2)) in
        score + Py.max 0 (1 - temp_diff / 10) in
    let factors := (factors + 1)%Z in
    (* Rainfall suitability *)
    let rainfall := default 500 (weather_conditions !! "rainfall") in
    let rain_range := rainfall_requirement crop_info in
    let score :=
      if within rain_range rainfall then score + 1
      else
        let rain_diff :=
          Py.min (Qabs (rainfall - rain_range.1))
                 (Qabs (rainfall - rain_range.2)) in
        score + Py.max 0 (1 - rain_diff / 500) in
    let factors := (factors + 1)%Z in
    (* Humidity suitability *)
    let humidity := default 60 (weather_conditions !! "humidity") in
    let humidity_range := humidity_requirement crop_info in
    let score :=
      if within humidity_range humidity then score + 1
      else
        let humidity_diff :=
          Py.min (Qabs (humidity - humidity_range.1))
                 (Qabs (humidity - humidity_range.2)) in
        score + Py.max 0 (1 - humidity_diff / 20) in
    let factors := (factors + 1)%Z in
    (* Regional suitability *)
    let score :=
      match regional_data !! location with
      | Some regional_info =>
        if contains crop (major_crops regional_info) then score + 1
        else score + 0.5
      | None => score
      end in
    let factors := (factors + 1)%Z in
    if (0 <? factors)%Z then score / inject_Z factors else 0
  end.

(** The members of [models.Season] that the seasonal table names. *)
Inductive Season : Set := KHARIF | RABI | ZAID.

Global Instance Season_eq_dec : EqDecision Season.
Proof. solve_decision. Defined.

(** An entry of [crop_data.json] as the whole class reads it: the ranges
    that [get_crop_suitability] uses, and the key ["seasons"], which the
    loader converts only when it is present. *)
Record CropEntry : Type := {
  seasons : option (list Season);
  requirements : CropInfo
}.

(** [self.crop_data] as the look-up table of [get_crop_suitability], from
    the items of the dictionary in the order of the file. *)
Definition crop_table (crop_data : list (string * CropEntry))
  : gmap string CropInfo :=
  list_to_map (map (fun item => (item.1, requirements item.2)) crop_data).

(** The loop [for crop, data in self.crop_data.items()] of
    [get_seasonal_crops]; [data["seasons"]] raises when the key is
    missing. *)
Fixpoint get_seasonal_crops_loop (season : Season)
    (items : list (string * CropEntry)) (suitable_crops : list string)
  : result (list string) :=
  match items with
  | [] => Ok suitable_crops
  | (crop, data) :: rest =>
    match seasons data with
    | None => Raise KeyError
    | Some crop_seasons =>
      get_seasonal_crops_loop season rest
        (if bool_decide (season ∈ crop_seasons)
         then suitable_crops ++ [crop]
         else suitable_crops)
    end
  end.

Definition get_seasonal_crops (crop_data : list (string * CropEntry))
    (season : Season) : result (list string) :=
  get_seasonal_crops_loop season crop_data [].

End IndianAgriculturalDatabase.

(** ** The statements of the specification, in its own words *)

Module Spec.


(** Section 6: closeness of a reading to a range, with linear decay over
    [scale] outside the range; [diff] is the distance to the nearer
    endpoint. *)
Definition closeness (scale : Q) (range : Q * Q) (x : Q) : Q :=
  if Qle_bool range.1 x && Qle_bool x range.2 then 1
  else
    let diff := Qmin (Qabs (x - range.1)) (Qabs (x - range.2)) in
    Qmax 0 (1 - diff / scale).

Definition is_major_crop (crop location : string) : Prop :=
  exists info, IndianAgriculturalDatabase.regional_data !! location = Some info
               /\ crop ∈ IndianAgriculturalDatabase.major_crops info.

Global Instance is_major_crop_dec crop location :
  Decision (is_major_crop crop location).
Proof.
  unfold is_major_crop.
  destruct (IndianAgriculturalDatabase.regional_data !! location) as [info|].
  - destruct (decide (crop ∈ IndianAgriculturalDatabase.major_crops info))
      as [H|H].
    + left. eauto.
    + right. intros (i & [= <-] & Hi). contradiction.
  - right. intros (i & [=] & _).
Defined.

(** Section 6: the regional-match term as the specification words it. *)
Definition regional_match_claimed (crop location : string) : Q :=
  if decide (is_major_crop crop location) then 1 else 0.5.

(** The regional-match term with the case of a location outside the
    regional table told apart. *)
Definition regional_match (crop location : string) : Q :=
  match IndianAgriculturalDatabase.regional_data !! location with
  | Some _ => if decide (is_major_crop crop location) then 1 else 0.5
  | None => 0
  end.

Definition weather_reading (weather : gmap string Q) (key : string) (dflt : Q)
  : Q := default dflt (weather !! key).

(** The mean of the four equally weighted factors, for a given regional
    term. *)
Definition mean_of_factors (info : IndianAgriculturalDatabase.CropInfo)
    (weather : gmap string Q) (regional : Q) : Q :=
  (closeness 10 (IndianAgriculturalDatabase.temperature_range info)
             (weather_reading weather "temperature" 25)
   + closeness 500 (IndianAgriculturalDatabase.rainfall_requirement info)
               (weather_reading weather "rainfall" 500)
   + closeness 20 (IndianAgriculturalDatabase.humidity_requirement info)
               (weather_reading weather "humidity" 60)
   + regional) / 4.

End Spec.

(** ** Sample data for the instances below *)

Module Sample.

(** A world in which no external source can be reached. *)
Definition offline : World :=
  {| http_get := fun _ _ => HttpError;
     random := fun _ => 1 # 1000000;
     now := fun _ => 20000%Z;
     float_of_str := fun _ => None |}.

(** A world in which the government source answers every request. *)
Definition online : World :=
  {| http_get := fun _ _ =>
       HttpResponse 200
         (Some (JObj [("price",
                       JArr [JObj [("price", JNum 2150);
                                   ("market", JStr "Karnal")]])]));
     random := fun _ => 1 # 2;
     now := fun _ => 20000%Z;
     float_of_str := fun _ => None |}.

Definition catalog : list (string * PriceData.t) :=
  [ ("Wheat", {| PriceData.current_price := 2000;
                 PriceData.trend := "increasing";
                 PriceData.markets := ["Delhi"; "Punjab"];
                 PriceData.unit := "quintal" |});
    ("Rice", {| PriceData.current_price := 3000;
                PriceData.trend := "decreasing";
                PriceData.markets := ["Kolkata"];
                PriceData.unit := "quintal" |});
    ("Turmeric", {| PriceData.current_price := 2345.67;
                    PriceData.trend := "stable";
                    PriceData.markets := [];
                    PriceData.unit := "quintal" |}) ]%string.

Definition crops : gmap string IndianAgriculturalDatabase.CropInfo :=
  {[ "Rice"%string :=
       {| IndianAgriculturalDatabase.temperature_range := (20, 35);
          IndianAgriculturalDatabase.rainfall_requirement := (400, 2000);
          IndianAgriculturalDatabase.humidity_requirement := (50, 90) |} ]}.

Definition price (name trend : string) (amount : Q) : CommodityPrice :=
  {| commodity_name := name; current_price := amount; price_trend := trend;
     market_location := "Delhi"; date := 20000 |}.

(** A batch of four prices. *)
Definition batch : list CommodityPrice :=
  [ price "Wheat" "increasing" 2100; price "Rice" "decreasing" 2900;
    price "Maize" "stable" 1800; price "Onion" "increasing" 2900 ].

(** A crop database of three crops; the last one has no ["seasons"]. *)
Definition rice_info : IndianAgriculturalDatabase.CropInfo :=
  {| IndianAgriculturalDatabase.temperature_range := (20, 35);
     IndianAgriculturalDatabase.rainfall_requirement := (400, 2000);
     IndianAgriculturalDatabase.humidity_requirement := (50, 90) |}.

Definition seasonal_crops
  : list (string * IndianAgriculturalDatabase.CropEntry) :=
  [ ("Rice", {| IndianAgriculturalDatabase.seasons :=
                  Some [IndianAgriculturalDatabase.KHARIF];
                IndianAgriculturalDatabase.requirements := rice_info |});
    ("Wheat", {| IndianAgriculturalDatabase.seasons :=
                   Some [IndianAgriculturalDatabase.RABI];
                 IndianAgriculturalDatabase.requirements := rice_info |});
    ("Maize", {| IndianAgriculturalDatabase.seasons :=
                   Some [IndianAgriculturalDatabase.KHARIF;
                         IndianAgriculturalDatabase.ZAID];
                 IndianAgriculturalDatabase.requirements := rice_info |})
  ]%string.

Definition unseasoned_crops
  : list (string * IndianAgriculturalDatabase.CropEntry) :=
  seasonal_crops
  ++ [ ("Jute"%string,
        {| IndianAgriculturalDatabase.seasons := None;
           IndianAgriculturalDatabase.requirements := rice_info |}) ].

End Sample.

Import FreeCommodityService IndianAgriculturalDatabase.

(** ** Facts about the runtime *)

(** [lra] over [Q] with the divisions by a literal turned into products. *)
Ltac literal_inverses :=
  unfold Qdiv in *;
  repeat match goal with
  | |- context [/ (?n # ?d)] =>
    let v := eval vm_compute in (/ (n # d)) in change (/ (n # d)) with v
  | H : context [/ (?n # ?d)] |- _ =>
    let v := eval vm_compute in (/ (n # d)) in change (/ (n # d)) with v in H
  end.
Ltac qlra := literal_inverses; lra.


Section runtime.

Lemma Qlt_bool_iff (a b : Q) : Qlt_bool a b = true <-> a < b.
Proof.
  unfold Qlt_bool. rewrite negb_true_iff, <- not_true_iff_false, Qle_bool_iff.
  split; [apply Qnot_le_lt | apply Qlt_not_le].
Qed.

Lemma Qlt_bool_false (a b : Q) : Qlt_bool a b = false <-> b <= a.
Proof.
  unfold Qlt_bool. rewrite negb_false_iff. apply Qle_bool_iff.
Qed.

Lemma max_cases (a b : Q) :
  (a < b /\ Py.max a b = b) \/ (b <= a /\ Py.max a b = a).
Proof.
  unfold Py.max. destruct (Qlt_bool a b) eqn:E.
  - left. split; [by apply Qlt_bool_iff | done].
  - right. split; [by apply Qlt_bool_false | done].
Qed.

Lemma min_cases (a b : Q) :
  (b < a /\ Py.min a b = b) \/ (a <= b /\ Py.min a b = a).
Proof.
  unfold Py.min. destruct (Qlt_bool b a) eqn:E.
  - left. split; [by apply Qlt_bool_iff | done].
  - right. split; [by apply Qlt_bool_false | done].
Qed.



Lemma max_Qmax (a b : Q) : Py.max a b == Qmax a b.
Proof.
  destruct (max_cases a b) as [[H ->]|[H ->]].
  - symmetry. apply Q.max_r. lra.
  - symmetry. by apply Q.max_l.
Qed.

Lemma min_Qmin (a b : Q) : Py.min a b == Qmin a b.
Proof.
  destruct (min_cases a b) as [[H ->]|[H ->]].
  - symmetry. apply Q.min_r. lra.
  - symmetry. by apply Q.min_l.
Qed.

(** Rounding to an integer moves a number by at most one half, and never
    across an integer. *)
Lemma round_half_even_floor (x : Q) :
  (Qfloor x <= round_half_even x <= Qfloor x + 1)%Z.
Proof.
  unfold round_half_even.
  destruct (Qcompare _ _); [destruct (Z.even _) | |]; lia.
Qed.

Lemma round_half_even_near (x : Q) :
  x - (1 # 2) <= inject_Z (round_half_even x) <= x + (1 # 2).
Proof.
  pose proof (Qfloor_le x) as Hlo. pose proof (Qlt_floor x) as Hhi.
  rewrite inject_Z_plus in Hhi. change (inject_Z 1) with 1 in Hhi.
  unfold round_half_even.
  destruct (Qcompare_spec (x - inject_Z (Qfloor x)) (1 # 2)) as [E|E|E];
    [destruct (Z.even _) | |];
    rewrite ?inject_Z_plus; change (inject_Z 1) with 1; lra.
Qed.

Lemma round_half_even_ge (n : Z) (x : Q) :
  inject_Z n <= x -> (n <= round_half_even x)%Z.
Proof.
  intros H. pose proof (round_half_even_floor x).
  assert (n <= Qfloor x)%Z; [| lia].
  rewrite <- (Qfloor_Z n). by apply Qfloor_resp_le.
Qed.

Lemma round_half_even_le (n : Z) (x : Q) :
  x <= inject_Z n -> (round_half_even x <= n)%Z.
Proof.
  intros H. pose proof (round_half_even_floor x) as Hf.
  assert (Qfloor x <= n)%Z as Hn.
  { rewrite <- (Qfloor_Z n). by apply Qfloor_resp_le. }
  destruct (decide (Qfloor x = n)) as [E|E]; [| lia].
  pose proof (Qfloor_le x) as Hlo. rewrite E in Hlo.
  unfold round_half_even.
  destruct (Qcompare_spec (x - inject_Z (Qfloor x)) (1 # 2)) as [E'|E'|E'];
    rewrite E in *; [lra | lia | lra].
Qed.

Lemma round2_near (x : Q) : x - 0.005 <= round2 x <= x + 0.005.
Proof.
  pose proof (round_half_even_near (x * 100)). unfold round2. qlra.
Qed.

Lemma round2_ge (k : Z) (x : Q) : inject_Z k / 100 <= x ->
  inject_Z k / 100 <= round2 x.
Proof.
  intros H. unfold round2.
  assert (inject_Z k <= x * 100) as Hk by qlra.
  apply round_half_even_ge in Hk. rewrite Zle_Qle in Hk. qlra.
Qed.

Lemma round2_le (k : Z) (x : Q) : x <= inject_Z k / 100 ->
  round2 x <= inject_Z k / 100.
Proof.
  intros H. unfold round2.
  assert (x * 100 <= inject_Z k) as Hk by qlra.
  apply round_half_even_le in Hk. rewrite Zle_Qle in Hk. qlra.
Qed.

End runtime.

(** ** The market resolver *)

Section market_resolver.

Lemma state_market_mapping_values (key market : string) :
  state_market_mapping !! key = Some market -> market <> ""%string.
Proof.
  intros H%elem_of_list_to_map_2.
  repeat (apply elem_of_cons in H as [[= _ ->]|H]; [done |]).
  by apply elem_of_nil in H.
Qed.

(** C5. When [location.state] is a key of the fixed table the resolver
    returns the mapped market whatever the known markets are; otherwise it
    returns the first known market, or [location.state] when there is none.
    For the state Maharashtra and no known market it returns Mumbai. *)
Theorem find_closest_market_resolution (location : Location)
    (markets : list string) :
  (forall market, state_market_mapping !! state location = Some market ->
     _find_closest_market location markets = market)
  /\ (state_market_mapping !! state location = None ->
      _find_closest_market location markets =
        match markets with
        | first :: _ => first
        | [] => state location
        end)
  /\ _find_closest_market {| state := "Maharashtra" |} [] = "Mumbai"%string.
Proof.
  unfold _find_closest_market. split; [| split].
  - intros market ->. reflexivity.
  - intros ->. reflexivity.
  - vm_compute. reflexivity.
Qed.

Lemma find_closest_market_resolution_witness :
  _find_closest_market {| state := "Haryana" |} ["Punjab"; "UP"]
    = "Delhi"%string
  /\ _find_closest_market {| state := "Goa" |} ["Punjab"; "UP"]
    = "Punjab"%string.
Proof.
  split.
  - apply (proj1 (find_closest_market_resolution
                    {| state := "Haryana" |} ["Punjab"; "UP"]%string)).
    vm_compute. reflexivity.
  - apply (proj1 (proj2 (find_closest_market_resolution
                    {| state := "Goa" |} ["Punjab"; "UP"]%string))).
    vm_compute. reflexivity.
Defined.

(** C6, as the code has it. The resolver is a total function to strings; it
    returns the empty string exactly when [location.state] is not a key of
    the table and the fall-back is empty: the first known market is the
    empty string, or there is no known market and [location.state] is the
    empty string. *)
Theorem find_closest_market_empty_iff (location : Location)
    (markets : list string) :
  _find_closest_market location markets = ""%string
  <-> state_market_mapping !! state location = None
      /\ match markets with
         | first :: _ => first = ""%string
         | [] => state location = ""%string
         end.
Proof.
  unfold _find_closest_market.
  destruct (state_market_mapping !! state location) as [market|] eqn:E;
    simpl.
  - split; [| by intros [[=] _]].
    intros ->. by apply state_market_mapping_values in E.
  - destruct markets; intuition.
Qed.

Lemma find_closest_market_empty_iff_witness :
  _find_closest_market {| state := "Goa" |} [""; "UP"]%string = ""%string.
Proof.
  apply (proj2 (find_closest_market_empty_iff
                  {| state := "Goa" |} [""; "UP"]%string)).
  split; vm_compute; reflexivity.
Defined.

(** C6 as stated fails: for the empty state and no known market the
    resolver returns the empty string. *)
Lemma find_closest_market_can_be_empty :
  _find_closest_market {| state := "" |} [] = ""%string.
Proof. vm_compute. reflexivity. Qed.

End market_resolver.

(** ** Trend histories *)

Section trends.

Context (w : World) (mock_prices : list (string * PriceData.t)).

(** What the loop of [get_price_trends] appends, entry by entry. *)
Lemma get_price_trends_loop_run (base_price : Q) (trend : string) (days : Z)
    (indices : list Z) (prices : list Trends.point) (t : nat) :
  get_price_trends_loop w base_price trend days indices prices t
  = (Ok (prices ++ imap (fun k i =>
           {| Trends.date := (now w (t + k) - (days - i))%Z;
              Trends.price :=
                Py.max (trend_price base_price trend i) (base_price * 0.5) |})
           indices),
     (t + length indices)%nat).
Proof.
  revert prices t.
  induction indices as [|i indices IH]; intros prices t; simpl.
  - unfold ret. by rewrite app_nil_r, Nat.add_0_r.
  - unfold mbind, M_bind, bind, datetime_now. rewrite IH.
    rewrite <- app_assoc, Nat.add_0_r, Nat.add_succ_r. simpl.
    do 4 f_equal. apply imap_ext. intros k j _. simpl.
    by rewrite Nat.add_succ_r.
Qed.





End trends.

Section trend_queries.

Context (w : World) (mock_prices : list (string * PriceData.t)).



(** The two error results that C7 names. *)
Lemma get_price_trends_not_found (commodity : string) (days : Z) (t : nat) :
  assoc commodity mock_prices = None ->
  get_price_trends w mock_prices commodity days t
    = (Ok (Trends.Error "Commodity not found"), t).
Proof. intros H. unfold get_price_trends. by rewrite H. Qed.

Lemma get_market_analysis_no_data :
  get_market_analysis [] = Analysis.Error "No price data available".
Proof. reflexivity. Qed.

(** C7, where the code departs from it: a trend query for a catalogued
    commodity over no day at all ([days <= 0]) builds an empty history and
    raises [IndexError] on [prices[-1]]. *)
Theorem get_price_trends_raises_without_days (commodity : string)
    (entry : PriceData.t) (days : Z) (t : nat) :
  assoc commodity mock_prices = Some entry -> (days <= 0)%Z ->
  get_price_trends w mock_prices commodity days t = (Raise IndexError, t).
Proof.
  intros Hentry Hdays. unfold get_price_trends. rewrite Hentry.
  unfold mbind, M_bind, bind. rewrite get_price_trends_loop_run.
  unfold range. replace (Z.to_nat days) with 0%nat by lia. simpl.
  by rewrite Nat.add_0_r.
Qed.

End trend_queries.



Lemma get_price_trends_raises_without_days_witness :
  get_price_trends Sample.offline Sample.catalog "Wheat" 0 0%nat
    = (Raise IndexError, 0%nat).
Proof.
  apply (get_price_trends_raises_without_days Sample.offline Sample.catalog
           "Wheat"%string
           {| PriceData.current_price := 2000;
              PriceData.trend := "increasing";
              PriceData.markets := ["Delhi"; "Punjab"]%string;
              PriceData.unit := "quintal" |} 0%Z 0%nat).
  - reflexivity.
  - lia.
Defined.


(** ** Market analysis *)

Section market_analysis.

Lemma sum_Z_ones {A} (xs : list A) (acc : Z) :
  fold_left Z.add (map (fun _ => 1%Z) xs) acc = (acc + Z.of_nat (length xs))%Z.
Proof.
  revert acc. induction xs as [|x xs IH]; intros acc; simpl.
  - lia.
  - rewrite IH. lia.
Qed.

Lemma count_trend_length (label : string) (prices : list CommodityPrice) :
  count_trend label prices
  = Z.of_nat (length (filter (fun p => String.eqb (price_trend p) label = true)
                             prices)).
Proof. unfold count_trend, sum_Z. by rewrite sum_Z_ones. Qed.

Lemma count_trend_cons (label : string) (p : CommodityPrice)
    (prices : list CommodityPrice) :
  count_trend label (p :: prices)
  = ((if String.eqb (price_trend p) label then 1 else 0)
     + count_trend label prices)%Z.
Proof.
  rewrite !count_trend_length, filter_cons.
  destruct (decide _) as [Hd|Hd]; cbn beta in Hd.
  - rewrite Hd. simpl length. lia.
  - apply not_true_is_false in Hd. rewrite Hd. lia.
Qed.

Lemma count_trend_app (label : string) (xs ys : list CommodityPrice) :
  count_trend label (xs ++ ys)
  = (count_trend label xs + count_trend label ys)%Z.
Proof.
  rewrite !count_trend_length, filter_app, length_app. lia.
Qed.

Lemma count_trends_total (prices : list CommodityPrice) :
  Forall (fun p => price_trend p ∈ ["increasing"; "decreasing"; "stable"]%string)
         prices ->
  (count_trend "increasing" prices + count_trend "decreasing" prices
   + count_trend "stable" prices)%Z = Z.of_nat (length prices).
Proof.
  induction 1 as [|p prices Hp _ IH].
  - reflexivity.
  - rewrite !count_trend_cons. simpl length.
    rewrite !elem_of_cons, elem_of_nil in Hp.
    destruct Hp as [-> | [-> | [-> | []]]]; simpl; lia.
Qed.

(** C8. For a non-empty batch whose trends are all one of increasing,
    decreasing and stable, the analysis is a summary whose three trend
    counts add up to the size of the batch. *)
Theorem trend_distribution_sums_to_batch (prices : list CommodityPrice) :
  prices <> [] ->
  Forall (fun p => price_trend p ∈ ["increasing"; "decreasing"; "stable"]%string)
         prices ->
  exists a,
    get_market_analysis prices = Analysis.Summary a
    /\ (Analysis.increasing (Analysis.trend_distribution a)
        + Analysis.decreasing (Analysis.trend_distribution a)
        + Analysis.stable (Analysis.trend_distribution a))%Z
       = Z.of_nat (length prices).
Proof.
  intros Hne Htrends. destruct prices as [|first others]; [done |].
  eexists. split; [reflexivity |]. simpl Analysis.trend_distribution.
  simpl Analysis.increasing. simpl Analysis.decreasing.
  simpl Analysis.stable. by apply count_trends_total.
Qed.

Lemma trend_distribution_sums_to_batch_witness :
  exists a,
    get_market_analysis
      [Sample.price "Wheat" "increasing" 2100;
       Sample.price "Rice" "decreasing" 2900;
       Sample.price "Maize" "stable" 1800;
       Sample.price "Onion" "increasing" 1500]
    = Analysis.Summary a
    /\ (Analysis.increasing (Analysis.trend_distribution a)
        + Analysis.decreasing (Analysis.trend_distribution a)
        + Analysis.stable (Analysis.trend_distribution a))%Z
       = 4%Z.
Proof.
  apply (trend_distribution_sums_to_batch
           [Sample.price "Wheat" "increasing" 2100;
            Sample.price "Rice" "decreasing" 2900;
            Sample.price "Maize" "stable" 1800;
            Sample.price "Onion" "increasing" 1500]).
  - discriminate.
  - repeat (apply List.Forall_cons; [rewrite !elem_of_cons; auto |]).
    apply List.Forall_nil.
Defined.

End market_analysis.

(** ** Price acquisition *)

Section price_acquisition.

Context (w : World) (mock_prices : list (string * PriceData.t)).

Ltac run_all :=
  unfold try_except, mbind, M_bind, bind, lift, ret, session_get,
    datetime_now, random_uniform, response_json, CommodityPrice_init in *.

(** A [try] whose handler returns a value never raises. *)
Lemma try_except_returns {A} (m : M A) (fallback : A) (t : nat) :
  exists r t', try_except m (fun _ => ret fallback) t = (Ok r, t').
Proof.
  unfold try_except, ret. destruct (m t) as [[a|e] t']; eauto.
Qed.

Lemma fetch_agmarknet_price_some (commodity : string) (location : Location)
    (t t' : nat) (p : CommodityPrice) :
  _fetch_agmarknet_price w commodity location t = (Ok (Some p), t') ->
  commodity_name p = commodity /\ price_trend p = "stable"%string.
Proof.
  unfold _fetch_agmarknet_price. run_all. intros H.
  repeat case_match; simplify_eq; done.
Qed.

Lemma fetch_real_price_returns (commodity : string) (location : Location)
    (t : nat) :
  exists r t', _fetch_real_price w commodity location t = (Ok r, t').
Proof. apply try_except_returns. Qed.

Lemma fetch_real_price_some (commodity : string) (location : Location)
    (t t' : nat) (p : CommodityPrice) :
  _fetch_real_price w commodity location t = (Ok (Some p), t') ->
  commodity_name p = commodity /\ price_trend p = "stable"%string.
Proof.
  unfold _fetch_real_price, _fetch_other_sources.
  unfold try_except, mbind, M_bind, bind, ret.
  destruct (_fetch_agmarknet_price w commodity location t)
    as [[[q|]|e] t1] eqn:E; simpl; intros H; simplify_eq.
  by apply fetch_agmarknet_price_some in E.
Qed.

Lemma create_mock_price_run (commodity : string) (location : Location)
    (t : nat) :
  let price_data := price_data_of mock_prices commodity location in
  let base_price := PriceData.current_price price_data in
  _create_mock_price w mock_prices commodity location t
  = (Ok {| commodity_name := commodity;
           current_price :=
             round2 (base_price
                     + (- (base_price * 0.1)
                        + (base_price * 0.1 - - (base_price * 0.1))
                          * random w t));
           price_trend := PriceData.trend price_data;
           market_location :=
             _find_closest_market location (PriceData.markets price_data);
           date := now w (S t) |},
     S (S t)).
Proof. reflexivity. Qed.

Lemma get_commodity_prices_loop_run (location : Location)
    (commodities : list string) (prices : list CommodityPrice) (t : nat) :
  exists fetched t',
    get_commodity_prices_loop w mock_prices location commodities prices t
      = (Ok (prices ++ fetched), t')
    /\ Forall2 (sourced w mock_prices location) commodities fetched.
Proof.
  revert prices t.
  induction commodities as [|commodity rest IH]; intros prices t.
  - exists [], t. simpl. unfold ret. rewrite app_nil_r. by split.
  - simpl. unfold mbind at 1. unfold M_bind at 1. unfold bind at 1.
    unfold try_except at 1. unfold mbind at 1. unfold M_bind at 1.
    unfold bind at 1.
    destruct (fetch_real_price_returns commodity location t)
      as (real & t1 & Hreal).
    rewrite Hreal. destruct real as [p|].
    + unfold ret at 1.
      destruct (IH (prices ++ [p]) t1) as (fetched & t' & Hrun & Hsrc).
      exists (p :: fetched), t'. rewrite Hrun, <- app_assoc. split; [done |].
      apply List.Forall2_cons; [| done]. split.
      * by apply fetch_real_price_some in Hreal as [? _].
      * left. eauto.
    + unfold mbind at 1. unfold M_bind at 1. unfold bind at 1.
      rewrite create_mock_price_run. cbv zeta. unfold ret at 1.
      match goal with
      | |- context [prices ++ [?q]] => set (mock_price := q)
      end.
      destruct (IH (prices ++ [mock_price]) (S (S t1)))
        as (fetched & t' & Hrun & Hsrc).
      exists (mock_price :: fetched), t'. rewrite Hrun, <- app_assoc.
      split; [done |].
      apply List.Forall2_cons; [| done]. split; [done |].
      right. exists t, t1, (S (S t1)). split; [done |].
      apply create_mock_price_run.
Qed.

End price_acquisition.

Section price_batches.

Context (w : World) (mock_prices : list (string * PriceData.t)).


(** C10. A price that the government source returned carries the trend
    stable, whatever the commodity and the payload; in a batch it counts
    neither as increasing nor as decreasing. *)
Theorem agmarknet_price_is_stable (commodity : string) (location : Location)
    (t t' : nat) (p : CommodityPrice) :
  _fetch_agmarknet_price w commodity location t = (Ok (Some p), t') ->
  price_trend p = "stable"%string
  /\ forall before after : list CommodityPrice,
       count_trend "increasing" (before ++ p :: after)
         = count_trend "increasing" (before ++ after)
       /\ count_trend "decreasing" (before ++ p :: after)
         = count_trend "decreasing" (before ++ after).
Proof.
  intros [_ Hstable]%fetch_agmarknet_price_some. split; [done |].
  intros before after.
  rewrite !count_trend_app, !count_trend_cons, Hstable. simpl. lia.
Qed.

(** C9, as the code has it. With a draw of [random()] in [0, 1) and a
    positive baseline [b] (2000 for a commodity outside the catalogue), the
    synthetic price is [b + d] rounded to two decimals for a variation
    [-0.1 b <= d < 0.1 b]; it lies within 0.005 of the interval
    [0.9 b, 1.1 b], and inside the interval when [10 b] is an integer. *)
Theorem create_mock_price_bounds (commodity : string) (location : Location)
    (t : nat) :
  let b :=
    match assoc commodity mock_prices with
    | Some entry => PriceData.current_price entry
    | None => 2000
    end in
  0 <= random w t < 1 -> 0 < b ->
  exists p t',
    _create_mock_price w mock_prices commodity location t = (Ok p, t')
    /\ (exists d, - (0.1 * b) <= d < 0.1 * b
                  /\ current_price p = round2 (b + d))
    /\ 0.9 * b - 0.005 <= current_price p <= 1.1 * b + 0.005
    /\ ((exists k : Z, b == inject_Z k / 10) ->
        0.9 * b <= current_price p <= 1.1 * b)
    /\ (assoc commodity mock_prices = None ->
        1800 <= current_price p <= 2200).
Proof.
  intros b [Hlo Hhi] Hb.
  rewrite create_mock_price_run. cbv zeta.
  assert (PriceData.current_price (price_data_of mock_prices commodity location)
          = b) as ->.
  { unfold price_data_of, b. by destruct (assoc commodity mock_prices). }
  set (d := - (b * 0.1) + (b * 0.1 - - (b * 0.1)) * random w t).
  assert (- (0.1 * b) <= d < 0.1 * b) as [Hd1 Hd2].
  { unfold d. split; nra. }
  eexists _, _. split; [reflexivity |]. simpl current_price.
  split; [by exists d |].
  pose proof (round2_near (b + d)) as [Hr1 Hr2].
  split; [split; lra |].
  assert ((exists k : Z, b == inject_Z k / 10) ->
          0.9 * b <= round2 (b + d) <= 1.1 * b) as Hinside;
    [| split; [done |]].
  2: { intros Habsent.
       assert (b == 2000) as Hdefault by (unfold b; by rewrite Habsent).
       assert (exists k : Z, b == inject_Z k / 10) as Hk
         by (exists 20000%Z; by rewrite Hdefault).
       destruct (Hinside Hk) as [H1 H2]. split; lra. }
  intros [k Hk]. split.
  - assert (0.9 * b == inject_Z (9 * k) / 100) as ->.
    { rewrite inject_Z_mult, Hk. change (inject_Z 9) with 9. field. }
    apply round2_ge. rewrite inject_Z_mult.
    change (inject_Z 9) with 9. qlra.
  - assert (1.1 * b == inject_Z (11 * k) / 100) as ->.
    { rewrite inject_Z_mult, Hk. change (inject_Z 11) with 11. field. }
    apply round2_le. rewrite inject_Z_mult.
    change (inject_Z 11) with 11. qlra.
Qed.

End price_batches.

Lemma agmarknet_price_is_stable_witness :
  let p := {| commodity_name := "Wheat"; current_price := 2150;
              price_trend := "stable"; market_location := "Karnal";
              date := 20000 |} in
  price_trend p = "stable"%string
  /\ forall before after : list CommodityPrice,
       count_trend "increasing" (before ++ p :: after)
         = count_trend "increasing" (before ++ after)
       /\ count_trend "decreasing" (before ++ p :: after)
         = count_trend "decreasing" (before ++ after).
Proof.
  apply (agmarknet_price_is_stable Sample.online "Wheat"
           {| state := "Haryana" |} 0%nat 2%nat).
  vm_compute. reflexivity.
Defined.

Lemma create_mock_price_bounds_witness :
  exists p t',
    _create_mock_price Sample.offline Sample.catalog "Wheat"
      {| state := "Haryana" |} 0%nat = (Ok p, t')
    /\ (exists d, - (0.1 * 2000) <= d < 0.1 * 2000
                  /\ current_price p = round2 (2000 + d))
    /\ 0.9 * 2000 - 0.005 <= current_price p <= 1.1 * 2000 + 0.005
    /\ ((exists k : Z, 2000 == inject_Z k / 10) ->
        0.9 * 2000 <= current_price p <= 1.1 * 2000)
    /\ (assoc "Wheat" Sample.catalog = None ->
        1800 <= current_price p <= 2200).
Proof.
  apply (create_mock_price_bounds Sample.offline Sample.catalog "Wheat"
           {| state := "Haryana" |} 0%nat).
  - simpl. lra.
  - simpl. lra.
Defined.

(** C9 as stated fails: with the baseline 2345.67 and the draw 0.000001
    the synthetic price is 2111.103469134 rounded to two decimals, 2111.1,
    which is below 0.9 * 2345.67 = 2111.103. *)
Lemma create_mock_price_below_interval :
  0 <= random Sample.offline 0 < 1
  /\ exists p t',
       _create_mock_price Sample.offline Sample.catalog "Turmeric"
         {| state := "Kerala" |} 0%nat = (Ok p, t')
       /\ current_price p == 2111.1
       /\ ~ 0.9 * 2345.67 <= current_price p.
Proof.
  split; [simpl; lra |].
  eexists _, _. split; [vm_compute; reflexivity |]. split.
  - vm_compute. reflexivity.
  - apply Qlt_not_le. vm_compute. reflexivity.
Qed.

(** ** Crop suitability *)

Section crop_suitability.

Lemma within_iff (range : Q * Q) (x : Q) :
  within range x = Qle_bool range.1 x && Qle_bool x range.2.
Proof. reflexivity. Qed.

(** One weather factor of the code is the closeness score of the
    specification. *)
Lemma factor_closeness (scale : Q) (range : Q * Q) (x score : Q) :
  (if within range x then score + 1
   else score + Py.max 0 (1 - Py.min (Qabs (x - range.1))
                                     (Qabs (x - range.2)) / scale))
  == score + Spec.closeness scale range x.
Proof.
  unfold Spec.closeness. rewrite within_iff.
  destruct (Qle_bool range.1 x && Qle_bool x range.2); [reflexivity |].
  apply Qplus_comp; [reflexivity |].
  rewrite max_Qmax. apply Q.max_compat; [reflexivity |].
  apply Qplus_comp; [reflexivity |]. apply Qopp_comp.
  apply Qmult_comp; [| reflexivity]. apply min_Qmin.
Qed.

Lemma closeness_bounds (scale : Q) (range : Q * Q) (x : Q) :
  0 < scale -> 0 <= Spec.closeness scale range x <= 1.
Proof.
  intros Hscale. unfold Spec.closeness.
  destruct (Qle_bool range.1 x && Qle_bool x range.2); [split; lra |].
  set (diff := Qmin _ _).
  assert (0 <= diff) as Hdiff.
  { unfold diff. apply Q.min_glb; apply Qabs_nonneg. }
  assert (0 <= diff / scale) as Hq.
  { apply Qle_shift_div_l; [done | lra]. }
  split.
  - apply Q.le_max_l.
  - apply Q.max_lub; lra.
Qed.

Lemma contains_iff (x : string) (xs : list string) :
  contains x xs = true <-> x ∈ xs.
Proof.
  unfold contains. rewrite existsb_exists, list_elem_of_In. split.
  - intros (y & Hy & ->%String.eqb_eq). done.
  - intros H. exists x. split; [done | apply String.eqb_refl].
Qed.

(** The regional step of the code adds the regional-match term. *)
Lemma regional_step (crop location : string) (score : Q) :
  match regional_data !! location with
  | Some regional_info =>
    if contains crop (major_crops regional_info) then score + 1
    else score + 0.5
  | None => score
  end == score + Spec.regional_match crop location.
Proof.
  unfold Spec.regional_match.
  destruct (regional_data !! location) as [info|] eqn:E; [| ring].
  destruct (contains crop (major_crops info)) eqn:Ec.
  - apply contains_iff in Ec. rewrite decide_True; [reflexivity |].
    exists info. by rewrite E.
  - rewrite decide_False; [reflexivity |].
    intros (info' & Hinfo & Hin). rewrite E in Hinfo. simplify_eq.
    apply contains_iff in Hin. congruence.
Qed.

Lemma regional_match_bounds (crop location : string) :
  0 <= Spec.regional_match crop location <= 1.
Proof.
  unfold Spec.regional_match.
  destruct (regional_data !! location); [destruct (decide _) |];
    split; lra.
Qed.

(** C4, as the code has it. For a crop of the crop database the score is
    the mean of four equally weighted factors and lies in [0, 1]: the three
    closeness scores of temperature, rainfall and humidity (scales 10, 500
    and 20; readings default to 25, 500 and 60) and a regional term that is
    1 when the location is in the regional table and the crop is one of its
    major crops, 0.5 when the location is in the table and the crop is not,
    and 0 when the location is not in the table. *)
Theorem crop_suitability_is_mean (crop_data : gmap string CropInfo)
    (crop location : string) (weather_conditions : gmap string Q)
    (crop_info : CropInfo) :
  crop_data !! crop = Some crop_info ->
  get_crop_suitability crop_data crop location weather_conditions
    == Spec.mean_of_factors crop_info weather_conditions
         (Spec.regional_match crop location)
  /\ 0 <= get_crop_suitability crop_data crop location weather_conditions <= 1.
Proof.
  intros Hcrop.
  assert (get_crop_suitability crop_data crop location weather_conditions
          == Spec.mean_of_factors crop_info weather_conditions
               (Spec.regional_match crop location)) as Hmean.
  { unfold get_crop_suitability, Spec.mean_of_factors, Spec.weather_reading.
    rewrite Hcrop. cbv zeta. simpl (0 <? _)%Z. cbv iota.
    simpl (inject_Z _).
    apply Qmult_comp; [| reflexivity].
    rewrite regional_step. apply Qplus_comp; [| reflexivity].
    rewrite factor_closeness. apply Qplus_comp; [| reflexivity].
    rewrite factor_closeness. apply Qplus_comp; [| reflexivity].
    rewrite factor_closeness. ring. }
  split; [done |]. rewrite Hmean. unfold Spec.mean_of_factors.
  pose proof (closeness_bounds 10 (temperature_range crop_info)
    (Spec.weather_reading weather_conditions "temperature" 25)) as Ht.
  pose proof (closeness_bounds 500 (rainfall_requirement crop_info)
    (Spec.weather_reading weather_conditions "rainfall" 500)) as Hr.
  pose proof (closeness_bounds 20 (humidity_requirement crop_info)
    (Spec.weather_reading weather_conditions "humidity" 60)) as Hh.
  pose proof (regional_match_bounds crop location) as Hg.
  destruct Ht, Hr, Hh, Hg; [done .. |]. split; qlra.
Qed.

Lemma crop_suitability_is_mean_witness :
  get_crop_suitability Sample.crops "Rice" "Punjab" {[ "temperature"%string := 40 ]}
    == Spec.mean_of_factors
         {| temperature_range := (20, 35);
            rainfall_requirement := (400, 2000);
            humidity_requirement := (50, 90) |}
         {[ "temperature"%string := 40 ]}
         (Spec.regional_match "Rice" "Punjab")
  /\ 0 <= get_crop_suitability Sample.crops "Rice" "Punjab"
            {[ "temperature"%string := 40 ]} <= 1.
Proof.
  apply (crop_suitability_is_mean Sample.crops "Rice" "Punjab"
           {[ "temperature"%string := 40 ]}).
  vm_compute. reflexivity.
Defined.

(** C4 as stated fails for a location outside the regional table: there
    the regional term is 0, not 0.5. Rice in Kerala with every reading in
    range scores (1 + 1 + 1 + 0) / 4 = 0.75, while the mean with a
    regional term of 0.5 is 0.875. *)
Lemma crop_suitability_unknown_location :
  get_crop_suitability Sample.crops "Rice" "Kerala" ∅ == 0.75
  /\ Spec.mean_of_factors
       {| temperature_range := (20, 35);
          rainfall_requirement := (400, 2000);
          humidity_requirement := (50, 90) |}
       ∅ (Spec.regional_match_claimed "Rice" "Kerala") == 0.875
  /\ ~ get_crop_suitability Sample.crops "Rice" "Kerala" ∅
       == Spec.mean_of_factors
            {| temperature_range := (20, 35);
               rainfall_requirement := (400, 2000);
               humidity_requirement := (50, 90) |}
            ∅ (Spec.regional_match_claimed "Rice" "Kerala").
Proof.
  split; [vm_compute; reflexivity |].
  split; [vm_compute; reflexivity |].
  vm_compute. discriminate.
Qed.

End crop_suitability.

(** ** The source chain, case by case *)

Section source_chain.

Context (w : World) (mock_prices : list (string * PriceData.t)).

Ltac run_chain :=
  unfold _fetch_real_price, _fetch_other_sources, _fetch_agmarknet_price,
    try_except, mbind, M_bind, bind, lift, ret, session_get, datetime_now,
    response_json, CommodityPrice_init, agmarknet_url in *.

Lemma commodity_codes_values (commodity code : string) :
  commodity_codes !! commodity = Some code -> str_truthy code = true.
Proof.
  intros H%elem_of_list_to_map_2.
  repeat (apply elem_of_cons in H as [[= _ ->]|H]; [done |]).
  by apply elem_of_nil in H.
Qed.

(** What a price returned by the chain tells about the world. *)
Lemma fetch_real_price_inv (commodity : string) (location : Location)
    (t t' : nat) (p : CommodityPrice) :
  _fetch_real_price w commodity location t = (Ok (Some p), t') ->
  exists code data,
    commodity_codes !! commodity = Some code
    /\ http_get w t (agmarknet_url code) = HttpResponse 200 (Some (JObj data))
    /\ date p = now w (S t)
    /\ t' = S (S t).
Proof.
  run_chain. intros H.
  destruct (commodity_codes !! commodity) as [code|] eqn:Hcode;
    [| simplify_eq].
  exists code.
  destruct (negb (str_truthy code)); [simplify_eq |].
  destruct (http_get w t _) as [|status body] eqn:Hget; [simplify_eq |].
  simpl in H. destruct (status =? 200)%Z eqn:Hstatus; [| simplify_eq].
  apply Z.eqb_eq in Hstatus as ->.
  destruct body as [[| | | | |data]|]; simpl in H; simplify_eq.
  exists data. split; [done |]. split; [done |].
  repeat case_match; simplify_eq; done.
Qed.

(** X1. A commodity outside the ten Agmarknet codes is never asked for:
    the chain returns no price and performs no effect. *)
Theorem fetch_real_price_without_code (commodity : string)
    (location : Location) (t : nat) :
  commodity_codes !! commodity = None ->
  _fetch_agmarknet_price w commodity location t = (Ok None, t)
  /\ _fetch_real_price w commodity location t = (Ok None, t).
Proof.
  intros H. run_chain. by rewrite H.
Qed.

(** X2. For a commodity with a code, the chain returns no price, after the
    one request, when the request fails, when the status is not 200, when
    the body is not JSON, and when the decoded object has no ['price'] or a
    falsy one. *)
Theorem fetch_real_price_soft_failures (commodity code : string)
    (location : Location) (t : nat) :
  commodity_codes !! commodity = Some code ->
  match http_get w t (agmarknet_url code) with
  | HttpError => True
  | HttpResponse status None => True
  | HttpResponse status (Some (JObj data)) =>
    status <> 200%Z \/ truthy (default (JArr []) (assoc "price" data)) = false
  | HttpResponse status (Some _) => True
  end ->
  _fetch_real_price w commodity location t = (Ok None, S t).
Proof.
  intros Hcode Hworld. run_chain.
  rewrite Hcode, (commodity_codes_values _ _ Hcode). simpl in *.
  destruct (http_get w t _) as [|status body]; [reflexivity |]. simpl.
  destruct (status =? 200)%Z eqn:Hstatus; [| reflexivity].
  apply Z.eqb_eq in Hstatus as ->.
  destruct body as [[| | | | |data]|]; simpl; try reflexivity.
  destruct Hworld as [? | ->]; done.
Qed.


(** X4. A price returned by the chain comes from a 200 answer to the
    request for the code of its commodity, whose body decoded to an object;
    it carries the name of the commodity and the trend stable, and two
    effects were performed (the request and the clock). *)
Theorem fetch_real_price_only_from_200 (commodity : string)
    (location : Location) (t t' : nat) (p : CommodityPrice) :
  _fetch_real_price w commodity location t = (Ok (Some p), t') ->
  commodity_name p = commodity
  /\ price_trend p = "stable"%string
  /\ t' = S (S t)
  /\ exists code data,
       commodity_codes !! commodity = Some code
       /\ http_get w t (agmarknet_url code)
          = HttpResponse 200 (Some (JObj data)).
Proof.
  intros H.
  destruct (fetch_real_price_some w commodity location t t' p H) as [? ?].
  destruct (fetch_real_price_inv commodity location t t' p H)
    as (code & data & ? & ? & ? & ?).
  eauto 10.
Qed.

End source_chain.

(** ** Batches and what follows from them *)

Section batches.

Context (w : World) (mock_prices : list (string * PriceData.t)).

Lemma assoc_Some_elem_of {A} (key : string) (items : list (string * A))
    (v : A) :
  assoc key items = Some v -> (key, v) ∈ items.
Proof.
  induction items as [|[k x] items IH]; simpl; [done |].
  destruct (String.eqb key k) eqn:E.
  - apply String.eqb_eq in E as ->. intros [= ->]. apply list_elem_of_here.
  - intros H. apply list_elem_of_further. by apply IH.
Qed.

Lemma sourced_trend (location : Location) (commodity : string)
    (p : CommodityPrice) :
  sourced w mock_prices location commodity p ->
  price_trend p = "stable"%string
  \/ price_trend p
     = PriceData.trend (price_data_of mock_prices commodity location).
Proof.
  intros [_ [(t & t' & H) | (t & t' & t'' & _ & H)]].
  - left. by apply fetch_real_price_some in H as [_ ?].
  - right. rewrite create_mock_price_run in H. by simplify_eq.
Qed.

(** X5. When no request is answered with the status 200, every entry of
    the batch is the synthetic price of its commodity: its trend and its
    market are those of the catalogue entry (the defaults for a commodity
    outside the catalogue), resolved for the location. *)
Theorem get_commodity_prices_all_synthetic (location : Location)
    (commodities : option (list string)) (t : nat) :
  (forall n url body, http_get w n url <> HttpResponse 200 body) ->
  exists prices t',
    get_commodity_prices w mock_prices location commodities t
      = (Ok prices, t')
    /\ Forall2
         (fun commodity p =>
            exists t0, _create_mock_price w mock_prices commodity location t0
                       = (Ok p, S (S t0)))
         (match commodities with
          | Some l => l
          | None => map fst mock_prices
          end)
         prices.
Proof.
  intros Hno200. unfold get_commodity_prices.
  destruct (get_commodity_prices_loop_run w mock_prices location
              (match commodities with
               | Some l => l
               | None => map fst mock_prices
               end) [] t) as (prices & t' & Hrun & Hsrc).
  exists prices, t'. split; [done |].
  eapply Forall2_impl; [exact Hsrc |].
  intros commodity p [_ [(t0 & t1 & H) | (t0 & t1 & t2 & _ & H)]].
  - apply fetch_real_price_inv in H as (code & data & _ & Hget & _).
    by apply Hno200 in Hget.
  - exists t1. rewrite create_mock_price_run in H |- *. by simplify_eq.
Qed.

(** X6. The batch of a non-empty request always analyses to a summary,
    never to the no-data result; when every trend of the catalogue is one
    of increasing, decreasing and stable, the three counts of the summary
    add up to the number of requested commodities. *)
Theorem analysis_of_batch (location : Location) (requested : list string)
    (t : nat) :
  requested <> [] ->
  exists prices t' a,
    get_commodity_prices w mock_prices location (Some requested) t
      = (Ok prices, t')
    /\ get_market_analysis prices = Analysis.Summary a
    /\ (Forall (fun item =>
                  PriceData.trend item.2
                  ∈ ["increasing"; "decreasing"; "stable"]%string)
               mock_prices ->
        (Analysis.increasing (Analysis.trend_distribution a)
         + Analysis.decreasing (Analysis.trend_distribution a)
         + Analysis.stable (Analysis.trend_distribution a))%Z
        = Z.of_nat (length requested)).
Proof.
  intros Hne. unfold get_commodity_prices.
  destruct (get_commodity_prices_loop_run w mock_prices location requested
              [] t) as (prices & t' & Hrun & Hsrc).
  simpl in Hrun. pose proof (Forall2_length _ _ _ Hsrc) as Hlen.
  destruct prices as [|first others].
  { destruct requested; [done | simpl in Hlen; lia]. }
  eexists _, t', _. split; [exact Hrun |]. split; [reflexivity |].
  intros Hcat. simpl Analysis.trend_distribution.
  simpl Analysis.increasing. simpl Analysis.decreasing.
  simpl Analysis.stable. rewrite Hlen. apply count_trends_total.
  clear Hrun Hlen Hne.
  induction Hsrc as [|commodity p cs ps Hp _ IH];
    [apply List.Forall_nil | apply List.Forall_cons; [| done]].
  apply sourced_trend in Hp as [-> | ->].
  - rewrite !elem_of_cons. auto.
  - unfold price_data_of.
    destruct (assoc commodity mock_prices) as [entry|] eqn:E; simpl.
    + apply assoc_Some_elem_of in E. rewrite Forall_forall in Hcat.
      by apply (Hcat _ E).
    + rewrite !elem_of_cons. auto.
Qed.

(** X7. With a draw of [random()] in [0, 1) and a baseline that is not
    negative (2000 for a commodity outside the catalogue), the synthetic
    price is not negative. *)
Theorem create_mock_price_nonneg (commodity : string) (location : Location)
    (t : nat) :
  0 <= random w t < 1 ->
  0 <= PriceData.current_price (price_data_of mock_prices commodity location) ->
  exists p t',
    _create_mock_price w mock_prices commodity location t = (Ok p, t')
    /\ 0 <= current_price p.
Proof.
  intros [Hlo Hhi] Hb. rewrite create_mock_price_run. cbv zeta.
  eexists _, _. split; [reflexivity |]. simpl current_price.
  set (b := PriceData.current_price _) in *.
  assert (inject_Z 0 / 100 <= round2
            (b + (- (b * 0.1) + (b * 0.1 - - (b * 0.1)) * random w t)))
    as H.
  { apply round2_ge. change (inject_Z 0 / 100) with (0 / 100).
    assert (0 <= b * random w t) by (by apply Qmult_le_0_compat).
    qlra. }
  change (inject_Z 0 / 100) with (0 / 100) in H. qlra.
Qed.

(** X8. The synthetic price of a commodity outside the catalogue has the
    trend stable, and its market is the market that the fixed table gives
    for the state of the location, or that state when the table has
    none. *)
Theorem create_mock_price_unknown_commodity (commodity : string)
    (location : Location) (t : nat) :
  assoc commodity mock_prices = None ->
  exists p t',
    _create_mock_price w mock_prices commodity location t = (Ok p, t')
    /\ commodity_name p = commodity
    /\ price_trend p = "stable"%string
    /\ market_location p
       = default (state location) (state_market_mapping !! state location).
Proof.
  intros Habsent. rewrite create_mock_price_run. cbv zeta.
  unfold price_data_of. rewrite Habsent.
  eexists _, _. split; [reflexivity |].
  cbn [commodity_name price_trend market_location
       PriceData.trend PriceData.markets].
  split; [done |]. split; [done |].
  unfold _find_closest_market. reflexivity.
Qed.

End batches.

(** ** Sentiment, recommendation and performers *)

Section summaries.

(** The percentage test of the sentiment and the threshold test of the
    recommendation are the same test on integers. *)
Lemma pct_above_60 (n total : Z) :
  (0 < total)%Z ->
  Qlt_bool 60 (inject_Z n / inject_Z total * 100) = (3 * total <? 5 * n)%Z.
Proof.
  intros Htotal. apply eq_true_iff_eq.
  rewrite Qlt_bool_iff, Z.ltb_lt.
  assert (0 < inject_Z total) as HT.
  { change 0 with (inject_Z 0). by rewrite <- Zlt_Qlt. }
  assert (inject_Z n / inject_Z total * inject_Z total == inject_Z n) as Hdiv.
  { field. intros Hz. rewrite Hz in HT. by apply Qlt_irrefl in HT. }
  rewrite <- (Qmult_lt_r _ _ (inject_Z total) HT).
  assert (3 * inject_Z total < 5 * inject_Z n <-> (3 * total < 5 * n)%Z)
    as <-.
  { rewrite Zlt_Qlt, !inject_Z_mult. reflexivity. }
  set (x := inject_Z n / inject_Z total) in *.
  split; intros H; nra.
Qed.

Lemma share_above_60 (n total : Z) :
  Qlt_bool (inject_Z total * 0.6) (inject_Z n) = (3 * total <? 5 * n)%Z.
Proof.
  apply eq_true_iff_eq. rewrite Qlt_bool_iff, Z.ltb_lt.
  rewrite Zlt_Qlt, !inject_Z_mult.
  change (inject_Z 3) with 3. change (inject_Z 5) with 5.
  split; intros H; lra.
Qed.

(** X9. For counts that are not negative the sentiment is decided by two
    integer tests on the total: Bullish when more than three fifths of the
    total increase, else Bearish when more than three fifths decrease, else
    Neutral; the two tests never hold together. *)
Theorem sentiment_by_counts (increasing decreasing stable : Z) :
  (0 <= increasing)%Z -> (0 <= decreasing)%Z -> (0 <= stable)%Z ->
  let total := (increasing + decreasing + stable)%Z in
  _calculate_market_sentiment increasing decreasing stable
  = (if (3 * total <? 5 * increasing)%Z then "Bullish"
     else if (3 * total <? 5 * decreasing)%Z then "Bearish"
     else "Neutral")%string
  /\ ~ ((3 * total < 5 * increasing)%Z /\ (3 * total < 5 * decreasing)%Z).
Proof.
  intros Hi Hd Hs total. split; [| lia].
  unfold _calculate_market_sentiment. fold total.
  destruct (total =? 0)%Z eqn:E.
  - apply Z.eqb_eq in E.
    destruct (Z.ltb_spec (3 * total) (5 * increasing)); [lia |].
    destruct (Z.ltb_spec (3 * total) (5 * decreasing)); [lia | done].
  - apply Z.eqb_neq in E. rewrite !pct_above_60 by lia. reflexivity.
Qed.

Lemma count_trend_nonneg (label : string) (prices : list CommodityPrice) :
  (0 <= count_trend label prices)%Z.
Proof. rewrite count_trend_length. lia. Qed.

(** X10. In the summary of a batch whose trends are all one of increasing,
    decreasing and stable, the sentiment and the recommendation agree:
    Bullish goes with the upward message, Bearish with the declining one
    and Neutral with the stable one. *)
Theorem sentiment_matches_recommendation (prices : list CommodityPrice) :
  prices <> [] ->
  Forall (fun p => price_trend p ∈ ["increasing"; "decreasing"; "stable"]%string)
         prices ->
  exists a,
    get_market_analysis prices = Analysis.Summary a
    /\ (Analysis.market_sentiment a = "Bullish"%string
        <-> Analysis.market_recommendation a
            = "Market is showing strong upward trends - good time for planting high-value crops"%string)
    /\ (Analysis.market_sentiment a = "Bearish"%string
        <-> Analysis.market_recommendation a
            = "Market is declining - consider diversifying or focusing on staple crops"%string)
    /\ (Analysis.market_sentiment a = "Neutral"%string
        <-> Analysis.market_recommendation a
            = "Market is stable - focus on crops with consistent demand"%string).
Proof.
  intros Hne Htrends. pose proof (count_trends_total prices Htrends) as Hsum.
  destruct prices as [|first others]; [done |].
  eexists. split; [reflexivity |].
  cbn [Analysis.market_sentiment Analysis.market_recommendation].
  set (batch := first :: others) in *.
  pose proof (count_trend_nonneg "increasing" batch) as Hi.
  pose proof (count_trend_nonneg "decreasing" batch) as Hd.
  pose proof (count_trend_nonneg "stable" batch) as Hs.
  unfold _calculate_market_sentiment, _get_market_recommendation.
  rewrite Hsum, !share_above_60.
  assert (0 < Z.of_nat (length batch))%Z as Hpos by (simpl; lia).
  rewrite !pct_above_60 by done.
  destruct (Z.of_nat (length batch) =? 0)%Z eqn:E;
    [apply Z.eqb_eq in E; lia |].
  destruct (3 * Z.of_nat (length batch) <? 5 * count_trend "increasing" batch)%Z;
    [| destruct (3 * Z.of_nat (length batch)
                 <? 5 * count_trend "decreasing" batch)%Z];
    repeat split; intros H; (reflexivity || discriminate H).
Qed.

End summaries.

Section performers.

Context {A : Type} (key : A -> Q).

Lemma max_by_snoc (best : A) (xs : list A) (x : A) :
  max_by key best (xs ++ [x])
  = if Qlt_bool (key (max_by key best xs)) (key x) then x
    else max_by key best xs.
Proof.
  revert best. induction xs as [|y xs IH]; intros best; simpl; [done |].
  apply IH.
Qed.

Lemma min_by_snoc (best : A) (xs : list A) (x : A) :
  min_by key best (xs ++ [x])
  = if Qlt_bool (key x) (key (min_by key best xs)) then x
    else min_by key best xs.
Proof.
  revert best. induction xs as [|y xs IH]; intros best; simpl; [done |].
  apply IH.
Qed.

(** [max(xs, key=key)] is the first element of largest key. *)
Lemma max_by_first_maximum (best : A) (xs : list A) :
  exists i,
    (best :: xs) !! i = Some (max_by key best xs)
    /\ (forall j q, (best :: xs) !! j = Some q ->
                    key q <= key (max_by key best xs))
    /\ (forall j q, (j < i)%nat -> (best :: xs) !! j = Some q ->
                    key q < key (max_by key best xs)).
Proof.
  induction xs as [|x xs IH] using rev_ind.
  - exists 0%nat. simpl. split; [done |]. split.
    + intros [|j] q; simpl; [intros [= ->]; lra | done].
    + intros j q Hj. lia.
  - destruct IH as (i & Hi & Hmax & Hfirst).
    pose proof (lookup_lt_Some _ _ _ Hi) as Hlen.
    rewrite max_by_snoc, app_comm_cons.
    destruct (Qlt_bool _ _) eqn:E.
    + apply Qlt_bool_iff in E. exists (length (best :: xs)).
      split; [by rewrite list_lookup_middle |]. split.
      * intros j q Hq. apply lookup_app_Some in Hq as [Hq | [_ Hq]].
        -- apply Hmax in Hq. lra.
        -- destruct (j - length (best :: xs))%nat; simplify_eq/=. lra.
      * intros j q Hj Hq. rewrite lookup_app_l in Hq by done.
        apply Hmax in Hq. lra.
    + apply Qlt_bool_false in E. exists i.
      split; [by rewrite lookup_app_l |]. split.
      * intros j q Hq. apply lookup_app_Some in Hq as [Hq | [_ Hq]].
        -- by apply Hmax in Hq.
        -- destruct (j - length (best :: xs))%nat; simplify_eq/=. done.
      * intros j q Hj Hq. rewrite lookup_app_l in Hq by lia.
        by apply (Hfirst j).
Qed.

(** [min(xs, key=key)] is the first element of smallest key. *)
Lemma min_by_first_minimum (best : A) (xs : list A) :
  exists i,
    (best :: xs) !! i = Some (min_by key best xs)
    /\ (forall j q, (best :: xs) !! j = Some q ->
                    key (min_by key best xs) <= key q)
    /\ (forall j q, (j < i)%nat -> (best :: xs) !! j = Some q ->
                    key (min_by key best xs) < key q).
Proof.
  induction xs as [|x xs IH] using rev_ind.
  - exists 0%nat. simpl. split; [done |]. split.
    + intros [|j] q; simpl; [intros [= ->]; lra | done].
    + intros j q Hj. lia.
  - destruct IH as (i & Hi & Hmin & Hfirst).
    pose proof (lookup_lt_Some _ _ _ Hi) as Hlen.
    rewrite min_by_snoc, app_comm_cons.
    destruct (Qlt_bool _ _) eqn:E.
    + apply Qlt_bool_iff in E. exists (length (best :: xs)).
      split; [by rewrite list_lookup_middle |]. split.
      * intros j q Hq. apply lookup_app_Some in Hq as [Hq | [_ Hq]].
        -- apply Hmin in Hq. lra.
        -- destruct (j - length (best :: xs))%nat; simplify_eq/=. lra.
      * intros j q Hj Hq. rewrite lookup_app_l in Hq by done.
        apply Hmin in Hq. lra.
    + apply Qlt_bool_false in E. exists i.
      split; [by rewrite lookup_app_l |]. split.
      * intros j q Hq. apply lookup_app_Some in Hq as [Hq | [_ Hq]].
        -- by apply Hmin in Hq.
        -- destruct (j - length (best :: xs))%nat; simplify_eq/=. done.
      * intros j q Hj Hq. rewrite lookup_app_l in Hq by lia.
        by apply (Hfirst j).
Qed.

(** A sum of numbers between two bounds. *)
Lemma sum_between (lo hi : Q) (xs : list Q) (acc : Q) :
  Forall (fun x => lo <= x <= hi) xs ->
  acc + inject_Z (Z.of_nat (length xs)) * lo <= fold_left Qplus xs acc
  /\ fold_left Qplus xs acc <= acc + inject_Z (Z.of_nat (length xs)) * hi.
Proof.
  intros H. revert acc.
  induction H as [|x xs [Hlo Hhi] _ IH]; intros acc; simpl fold_left.
  - change (inject_Z (Z.of_nat (@length Q []))) with 0. split; lra.
  - destruct (IH (acc + x)) as [IH1 IH2].
    simpl length. rewrite Nat2Z.inj_succ, <- Z.add_1_r, inject_Z_plus.
    change (inject_Z 1) with 1. split; lra.
Qed.

End performers.

Section summary_figures.

(** X11. The best performer of a summary is the first entry of the batch,
    in input order, whose price is the largest. *)
Theorem best_performing_first_maximum (prices : list CommodityPrice) :
  prices <> [] ->
  exists a i p,
    get_market_analysis prices = Analysis.Summary a
    /\ prices !! i = Some p
    /\ Analysis.best_performing a = performer_of p
    /\ (forall q, q ∈ prices -> current_price q <= current_price p)
    /\ (forall j q, (j < i)%nat -> prices !! j = Some q ->
                    current_price q < current_price p).
Proof.
  intros Hne. destruct prices as [|first others]; [done |].
  destruct (max_by_first_maximum current_price first others)
    as (i & Hi & Hmax & Hfirst).
  eexists _, i, _. split; [reflexivity |]. split; [exact Hi |].
  split; [reflexivity |]. split; [| done].
  intros q (j & Hq)%list_elem_of_lookup. by apply (Hmax j).
Qed.

(** X12. The worst performer of a summary is the first entry of the batch,
    in input order, whose price is the smallest. *)
Theorem worst_performing_first_minimum (prices : list CommodityPrice) :
  prices <> [] ->
  exists a i p,
    get_market_analysis prices = Analysis.Summary a
    /\ prices !! i = Some p
    /\ Analysis.worst_performing a = performer_of p
    /\ (forall q, q ∈ prices -> current_price p <= current_price q)
    /\ (forall j q, (j < i)%nat -> prices !! j = Some q ->
                    current_price p < current_price q).
Proof.
  intros Hne. destruct prices as [|first others]; [done |].
  destruct (min_by_first_minimum current_price first others)
    as (i & Hi & Hmin & Hfirst).
  eexists _, i, _. split; [reflexivity |]. split; [exact Hi |].
  split; [reflexivity |]. split; [| done].
  intros q (j & Hq)%list_elem_of_lookup. by apply (Hmin j).
Qed.

(** X13. In a summary the worst price is at most the best price, and the
    average price, rounded to two decimals, lies between them up to the
    rounding step of 0.005. *)
Theorem average_between_performers (prices : list CommodityPrice) :
  prices <> [] ->
  exists a,
    get_market_analysis prices = Analysis.Summary a
    /\ Analysis.price (Analysis.worst_performing a)
       <= Analysis.price (Analysis.best_performing a)
    /\ Analysis.price (Analysis.worst_performing a) - 0.005
       <= Analysis.average_price a
    /\ Analysis.average_price a
       <= Analysis.price (Analysis.best_performing a) + 0.005.
Proof.
  intros Hne. destruct prices as [|first others]; [done |].
  destruct (max_by_first_maximum current_price first others)
    as (_ & _ & Hmax & _).
  destruct (min_by_first_minimum current_price first others)
    as (_ & _ & Hmin & _).
  eexists. split; [reflexivity |].
  cbn [Analysis.worst_performing Analysis.best_performing
       Analysis.average_price Analysis.price performer_of].
  set (batch := first :: others) in *.
  set (hi := current_price (max_by current_price first others)) in *.
  set (lo := current_price (min_by current_price first others)) in *.
  assert (lo <= hi) as Hlohi.
  { pose proof (Hmax 0%nat first eq_refl). pose proof (Hmin 0%nat first eq_refl).
    lra. }
  split; [done |].
  assert (Forall (fun x => lo <= x <= hi) (map current_price batch)) as Hall.
  { apply Forall_forall. intros x (q & -> & Hq)%list_elem_of_fmap.
    apply list_elem_of_lookup in Hq as (j & Hq).
    split; [by apply (Hmin j) | by apply (Hmax j)]. }
  destruct (sum_between lo hi _ 0 Hall) as [Hsum1 Hsum2].
  rewrite length_map in Hsum1, Hsum2. fold (sum_Q (map current_price batch)) in *.
  set (n := inject_Z (Z.of_nat (length batch))) in *.
  assert (0 < n) as Hn.
  { unfold n. change 0 with (inject_Z 0). rewrite <- Zlt_Qlt. simpl. lia. }
  set (avg := sum_Q (map current_price batch) / n).
  assert (lo <= avg <= hi) as [Havg1 Havg2].
  { unfold avg. split.
    - apply Qle_shift_div_l; [done | lra].
    - apply Qle_shift_div_r; [done | lra]. }
  pose proof (round2_near avg) as [Hr1 Hr2]. split; lra.
Qed.

End summary_figures.

(** ** The shape of a trend history *)

Section trend_shapes.

Context (w : World) (mock_prices : list (string * PriceData.t)).





End trend_shapes.

Section trend_directions.

Context (w : World) (mock_prices : list (string * PriceData.t)).









End trend_directions.

(** ** More on crop suitability *)

Section suitability_range.

Lemma get_crop_suitability_mean (crop_data : gmap string CropInfo)
    (crop location : string) (weather_conditions : gmap string Q)
    (crop_info : CropInfo) :
  crop_data !! crop = Some crop_info ->
  get_crop_suitability crop_data crop location weather_conditions
  == Spec.mean_of_factors crop_info weather_conditions
       (Spec.regional_match crop location).
Proof.
  intros Hcrop.
  unfold get_crop_suitability, Spec.mean_of_factors, Spec.weather_reading.
  rewrite Hcrop. cbv zeta. simpl (0 <? _)%Z. cbv iota. simpl (inject_Z _).
  apply Qmult_comp; [| reflexivity].
  rewrite regional_step. apply Qplus_comp; [| reflexivity].
  rewrite !factor_closeness. ring.
Qed.



Lemma regional_match_cases (crop location : string) :
  (Spec.is_major_crop crop location /\ Spec.regional_match crop location = 1)
  \/ (~ Spec.is_major_crop crop location
      /\ is_Some (regional_data !! location)
      /\ Spec.regional_match crop location = 0.5)
  \/ (~ Spec.is_major_crop crop location
      /\ regional_data !! location = None
      /\ Spec.regional_match crop location = 0).
Proof.
  unfold Spec.regional_match.
  destruct (regional_data !! location) as [info|] eqn:E.
  - destruct (decide (Spec.is_major_crop crop location)); [by left |].
    right. left. eauto.
  - right. right. split; [| done].
    intros (info & Hinfo & _). unfold Spec.is_major_crop in *. congruence.
Qed.


(** X19. For a crop of the database the location bounds the score: at most
    0.75 for a location outside the regional table, at least 0.125 for a
    location of the table and at least 0.25 when the crop is one of its
    major crops. *)
Theorem suitability_by_location (crop_data : gmap string CropInfo)
    (crop location : string) (weather_conditions : gmap string Q)
    (crop_info : CropInfo) :
  crop_data !! crop = Some crop_info ->
  let score :=
    get_crop_suitability crop_data crop location weather_conditions in
  (regional_data !! location = None -> score <= 0.75)
  /\ (is_Some (regional_data !! location) -> 0.125 <= score)
  /\ ((exists info, regional_data !! location = Some info
                    /\ crop ∈ major_crops info) -> 0.25 <= score).
Proof.
  intros Hcrop score. unfold score.
  rewrite (get_crop_suitability_mean _ _ _ _ _ Hcrop).
  unfold Spec.mean_of_factors, Spec.weather_reading.
  set (temp := default 25 _). set (rain := default 500 _).
  set (hum := default 60 _).
  pose proof (closeness_bounds 10 (temperature_range crop_info) temp) as Bt.
  pose proof (closeness_bounds 500 (rainfall_requirement crop_info) rain)
    as Br.
  pose proof (closeness_bounds 20 (humidity_requirement crop_info) hum) as Bh.
  destruct Bt as [Bt1 Bt2], Br as [Br1 Br2], Bh as [Bh1 Bh2]; [done .. |].
  destruct (regional_match_cases crop location)
    as [[Hmajor ->] | [(Hno & Hin & ->) | (Hno & Hout & ->)]].
  - destruct Hmajor as (info & Hinfo & Hin).
    split; [intros ?; congruence |]. split; intros _; qlra.
  - split; [intros Hnone; rewrite Hnone in Hin; by destruct Hin |].
    split; [intros _; qlra | done].
  - split; [intros _; qlra |].
    split; [rewrite Hout; by intros [? ?] | done].
Qed.

End suitability_range.

(** ** Seasonal crops *)

Section seasonal_crops.

Lemma get_seasonal_crops_loop_ok (season : Season)
    (items : list (string * CropEntry)) (suitable_crops : list string) :
  Forall (fun item => is_Some (seasons item.2)) items ->
  get_seasonal_crops_loop season items suitable_crops
  = Ok (suitable_crops
        ++ map fst (filter (fun item => season ∈ default [] (seasons item.2))
                           items)).
Proof.
  intros H. revert suitable_crops.
  induction H as [|[crop data] items [crop_seasons Hs] _ IH];
    intros suitable_crops; simpl.
  - by rewrite app_nil_r.
  - simpl in Hs. rewrite Hs, IH, filter_cons. simpl. rewrite Hs. simpl.
    destruct (decide (season ∈ crop_seasons)) as [Hin|Hin].
    + rewrite bool_decide_eq_true_2 by done. simpl. by rewrite <- app_assoc.
    + by rewrite bool_decide_eq_false_2 by done.
Qed.

Lemma get_seasonal_crops_loop_raises (season : Season)
    (items : list (string * CropEntry)) (suitable_crops : list string) :
  Exists (fun item => seasons item.2 = None) items ->
  get_seasonal_crops_loop season items suitable_crops = Raise KeyError.
Proof.
  intros H. revert suitable_crops.
  induction H as [[crop data] items Hs | [crop data] items _ IH];
    intros suitable_crops; simpl.
  - simpl in Hs. by rewrite Hs.
  - destruct (seasons data); [apply IH | done].
Qed.

(** X20. When every crop of the database has its ["seasons"], the query
    returns the names of the crops whose seasons contain the season asked
    for, in the order of the database; each of them is a crop that
    [get_crop_suitability] knows. *)
Theorem get_seasonal_crops_selects (crop_data : list (string * CropEntry))
    (season : Season) :
  Forall (fun item => is_Some (seasons item.2)) crop_data ->
  get_seasonal_crops crop_data season
  = Ok (map fst (filter (fun item => season ∈ default [] (seasons item.2))
                        crop_data))
  /\ forall crops crop,
       get_seasonal_crops crop_data season = Ok crops -> crop ∈ crops ->
       is_Some (crop_table crop_data !! crop).
Proof.
  intros Hall. unfold get_seasonal_crops.
  rewrite get_seasonal_crops_loop_ok by done. simpl app.
  split; [done |]. intros crops crop [= <-] Hin.
  apply list_elem_of_fmap in Hin as (item & -> & Hitem).
  apply list_elem_of_filter in Hitem as [_ Hitem].
  unfold crop_table. apply not_eq_None_Some.
  rewrite <- not_elem_of_list_to_map. intros Hno. apply Hno.
  apply list_elem_of_fmap. exists (item.1, requirements item.2).
  split; [done |].
  apply (list_elem_of_fmap_2 (fun item => (item.1, requirements item.2))).
  done.
Qed.

(** X21. The query raises [KeyError] exactly when some crop of the
    database has no ["seasons"], whatever the season asked for and whatever
    the other crops are. *)
Theorem get_seasonal_crops_raises_iff (crop_data : list (string * CropEntry))
    (season : Season) :
  get_seasonal_crops crop_data season = Raise KeyError
  <-> exists crop data, (crop, data) ∈ crop_data /\ seasons data = None.
Proof.
  unfold get_seasonal_crops. split.
  - intros Hraise.
    destruct (decide (Forall (fun item : string * CropEntry =>
                                is_Some (seasons item.2)) crop_data))
      as [Hall | Hsome].
    + by rewrite get_seasonal_crops_loop_ok in Hraise.
    + apply not_Forall_Exists in Hsome; [| apply _].
      apply Exists_exists in Hsome as ([crop data] & Hin & Hnone).
      exists crop, data. split; [done |].
      simpl in Hnone. by apply eq_None_not_Some.
  - intros (crop & data & Hin & Hnone).
    apply get_seasonal_crops_loop_raises, Exists_exists.
    by exists (crop, data).
Qed.

End seasonal_crops.

(** ** Instances *)

Lemma fetch_real_price_without_code_witness :
  _fetch_agmarknet_price Sample.online "Turmeric" {| state := "Kerala" |}
    0%nat = (Ok None, 0%nat)
  /\ _fetch_real_price Sample.online "Turmeric" {| state := "Kerala" |}
       0%nat = (Ok None, 0%nat).
Proof.
  apply (fetch_real_price_without_code Sample.online "Turmeric"
           {| state := "Kerala" |} 0%nat).
  vm_compute. reflexivity.
Defined.

Lemma fetch_real_price_soft_failures_witness :
  _fetch_real_price Sample.offline "Wheat" {| state := "Haryana" |} 0%nat
  = (Ok None, 1%nat).
Proof.
  apply (fetch_real_price_soft_failures Sample.offline "Wheat" "1102"
           {| state := "Haryana" |} 0%nat).
  - vm_compute. reflexivity.
  - exact I.
Defined.


Lemma fetch_real_price_only_from_200_witness :
  let p := {| commodity_name := "Wheat"; current_price := 2150;
              price_trend := "stable"; market_location := "Karnal";
              date := 20000 |} in
  commodity_name p = "Wheat"%string
  /\ price_trend p = "stable"%string
  /\ 2%nat = 2%nat
  /\ exists code data,
       commodity_codes !! "Wheat"%string = Some code
       /\ http_get Sample.online 0 (agmarknet_url code)
          = HttpResponse 200 (Some (JObj data)).
Proof.
  apply (fetch_real_price_only_from_200 Sample.online "Wheat"
           {| state := "Haryana" |} 0%nat 2%nat).
  vm_compute. reflexivity.
Defined.

Lemma get_commodity_prices_all_synthetic_witness :
  exists prices t',
    get_commodity_prices Sample.offline Sample.catalog
      {| state := "Haryana" |} (Some ["Wheat"; "Saffron"]%string) 0%nat
      = (Ok prices, t')
    /\ Forall2
         (fun commodity p =>
            exists t0, _create_mock_price Sample.offline Sample.catalog
                         commodity {| state := "Haryana" |} t0
                       = (Ok p, S (S t0)))
         ["Wheat"; "Saffron"]%string prices.
Proof.
  apply (get_commodity_prices_all_synthetic Sample.offline Sample.catalog
           {| state := "Haryana" |} (Some ["Wheat"; "Saffron"]%string) 0%nat).
  intros n url body. discriminate.
Defined.

Lemma analysis_of_batch_witness :
  exists prices t' a,
    get_commodity_prices Sample.online Sample.catalog
      {| state := "Haryana" |} (Some ["Wheat"; "Turmeric"]%string) 0%nat
      = (Ok prices, t')
    /\ get_market_analysis prices = Analysis.Summary a
    /\ (Forall (fun item =>
                  PriceData.trend item.2
                  ∈ ["increasing"; "decreasing"; "stable"]%string)
               Sample.catalog ->
        (Analysis.increasing (Analysis.trend_distribution a)
         + Analysis.decreasing (Analysis.trend_distribution a)
         + Analysis.stable (Analysis.trend_distribution a))%Z
        = 2%Z).
Proof.
  apply (analysis_of_batch Sample.online Sample.catalog
           {| state := "Haryana" |} ["Wheat"; "Turmeric"]%string 0%nat).
  discriminate.
Defined.

Lemma create_mock_price_nonneg_witness :
  exists p t',
    _create_mock_price Sample.offline Sample.catalog "Wheat"
      {| state := "Haryana" |} 0%nat = (Ok p, t')
    /\ 0 <= current_price p.
Proof.
  apply (create_mock_price_nonneg Sample.offline Sample.catalog "Wheat"
           {| state := "Haryana" |} 0%nat).
  - simpl. lra.
  - simpl. lra.
Defined.

Lemma create_mock_price_unknown_commodity_witness :
  exists p t',
    _create_mock_price Sample.offline Sample.catalog "Saffron"
      {| state := "Haryana" |} 0%nat = (Ok p, t')
    /\ commodity_name p = "Saffron"%string
    /\ price_trend p = "stable"%string
    /\ market_location p
       = default "Haryana"%string (state_market_mapping !! "Haryana"%string).
Proof.
  apply (create_mock_price_unknown_commodity Sample.offline Sample.catalog
           "Saffron" {| state := "Haryana" |} 0%nat).
  reflexivity.
Defined.

Lemma sentiment_by_counts_witness :
  _calculate_market_sentiment 4 0 1 = "Bullish"%string
  /\ ~ ((3 * 5 < 5 * 4)%Z /\ (3 * 5 < 5 * 0)%Z).
Proof.
  apply (sentiment_by_counts 4 0 1); lia.
Defined.

Lemma sentiment_matches_recommendation_witness :
  exists a,
    get_market_analysis Sample.batch = Analysis.Summary a
    /\ (Analysis.market_sentiment a = "Bullish"%string
        <-> Analysis.market_recommendation a
            = "Market is showing strong upward trends - good time for planting high-value crops"%string)
    /\ (Analysis.market_sentiment a = "Bearish"%string
        <-> Analysis.market_recommendation a
            = "Market is declining - consider diversifying or focusing on staple crops"%string)
    /\ (Analysis.market_sentiment a = "Neutral"%string
        <-> Analysis.market_recommendation a
            = "Market is stable - focus on crops with consistent demand"%string).
Proof.
  apply (sentiment_matches_recommendation Sample.batch).
  - discriminate.
  - repeat (apply List.Forall_cons; [rewrite !elem_of_cons; auto |]).
    apply List.Forall_nil.
Defined.

Lemma best_performing_first_maximum_witness :
  exists a i p,
    get_market_analysis Sample.batch = Analysis.Summary a
    /\ Sample.batch !! i = Some p
    /\ Analysis.best_performing a = performer_of p
    /\ (forall q, q ∈ Sample.batch -> current_price q <= current_price p)
    /\ (forall j q, (j < i)%nat -> Sample.batch !! j = Some q ->
                    current_price q < current_price p).
Proof.
  apply (best_performing_first_maximum Sample.batch). discriminate.
Defined.

Lemma worst_performing_first_minimum_witness :
  exists a i p,
    get_market_analysis Sample.batch = Analysis.Summary a
    /\ Sample.batch !! i = Some p
    /\ Analysis.worst_performing a = performer_of p
    /\ (forall q, q ∈ Sample.batch -> current_price p <= current_price q)
    /\ (forall j q, (j < i)%nat -> Sample.batch !! j = Some q ->
                    current_price p < current_price q).
Proof.
  apply (worst_performing_first_minimum Sample.batch). discriminate.
Defined.

Lemma average_between_performers_witness :
  exists a,
    get_market_analysis Sample.batch = Analysis.Summary a
    /\ Analysis.price (Analysis.worst_performing a)
       <= Analysis.price (Analysis.best_performing a)
    /\ Analysis.price (Analysis.worst_performing a) - 0.005
       <= Analysis.average_price a
    /\ Analysis.average_price a
       <= Analysis.price (Analysis.best_performing a) + 0.005.
Proof.
  apply (average_between_performers Sample.batch). discriminate.
Defined.






Lemma suitability_by_location_witness :
  (regional_data !! "Kerala"%string = None ->
   get_crop_suitability Sample.crops "Rice" "Kerala" ∅ <= 0.75)
  /\ (is_Some (regional_data !! "Kerala"%string) ->
      0.125 <= get_crop_suitability Sample.crops "Rice" "Kerala" ∅)
  /\ ((exists info, regional_data !! "Kerala"%string = Some info
                    /\ "Rice"%string ∈ major_crops info) ->
      0.25 <= get_crop_suitability Sample.crops "Rice" "Kerala" ∅).
Proof.
  apply (suitability_by_location Sample.crops "Rice" "Kerala" ∅
           Sample.rice_info).
  vm_compute. reflexivity.
Defined.

Lemma get_seasonal_crops_selects_witness :
  get_seasonal_crops Sample.seasonal_crops KHARIF
  = Ok (map fst (filter (fun item => KHARIF ∈ default [] (seasons item.2))
                        Sample.seasonal_crops))
  /\ forall crops crop,
       get_seasonal_crops Sample.seasonal_crops KHARIF = Ok crops ->
       crop ∈ crops ->
       is_Some (crop_table Sample.seasonal_crops !! crop).
Proof.
  apply (get_seasonal_crops_selects Sample.seasonal_crops KHARIF).
  repeat (apply List.Forall_cons; [by eexists |]). apply List.Forall_nil.
Defined.

(** The sample databases run through the seasonal query. *)
Example seasonal_crops_kharif :
  get_seasonal_crops Sample.seasonal_crops KHARIF = Ok ["Rice"; "Maize"]%string
  /\ get_seasonal_crops Sample.unseasoned_crops KHARIF = Raise KeyError.
Proof. split; reflexivity. Qed.

(** ** Empty requests and the order of a batch *)

Section batch_order.

Lemma count_trend_Permutation (label : string)
    (prices1 prices2 : list CommodityPrice) :
  prices1 ≡ₚ prices2 -> count_trend label prices1 = count_trend label prices2.
Proof.
  intros H. rewrite !count_trend_length. by rewrite H.
Qed.

(** X22. The analysis of the batch of a request is the no-data result
    exactly when the request is empty, as it is for the default request on
    an empty catalogue. *)
Theorem analysis_no_data_iff (w : World)
    (mock_prices : list (string * PriceData.t)) (location : Location)
    (commodities : option (list string)) (t : nat) :
  exists prices t',
    get_commodity_prices w mock_prices location commodities t
      = (Ok prices, t')
    /\ (get_market_analysis prices
          = Analysis.Error "No price data available"
        <-> match commodities with
            | Some l => l
            | None => map fst mock_prices
            end = []).
Proof.
  unfold get_commodity_prices.
  destruct (get_commodity_prices_loop_run w mock_prices location
              (match commodities with
               | Some l => l
               | None => map fst mock_prices
               end) [] t) as (prices & t' & Hrun & Hsrc).
  exists prices, t'. split; [done |].
  destruct Hsrc as [|commodity p rest others _ _]; [done |].
  simpl. split; intros Hno; discriminate Hno.
Qed.

(** X23. The trend counts, the sentiment and the recommendation of a
    summary do not depend on the order of the batch. *)
Theorem analysis_order_independent (prices1 prices2 : list CommodityPrice)
    (a1 a2 : Analysis.t) :
  prices1 ≡ₚ prices2 ->
  get_market_analysis prices1 = Analysis.Summary a1 ->
  get_market_analysis prices2 = Analysis.Summary a2 ->
  Analysis.trend_distribution a1 = Analysis.trend_distribution a2
  /\ Analysis.market_sentiment a1 = Analysis.market_sentiment a2
  /\ Analysis.market_recommendation a1 = Analysis.market_recommendation a2.
Proof.
  intros Hperm H1 H2.
  destruct prices1 as [|p1 rest1]; [discriminate H1 |].
  destruct prices2 as [|p2 rest2]; [discriminate H2 |].
  injection H1 as <-. injection H2 as <-.
  cbn [Analysis.trend_distribution Analysis.market_sentiment
       Analysis.market_recommendation].
  rewrite !(count_trend_Permutation _ _ _ Hperm).
  pose proof (Permutation_length Hperm) as Hlen.
  simpl length in *. by rewrite Hlen.
Qed.

End batch_order.

Lemma analysis_order_independent_witness :
  exists a1 a2,
    get_market_analysis Sample.batch = Analysis.Summary a1
    /\ get_market_analysis (rev Sample.batch) = Analysis.Summary a2
    /\ Analysis.trend_distribution a1 = Analysis.trend_distribution a2
    /\ Analysis.market_sentiment a1 = Analysis.market_sentiment a2
    /\ Analysis.market_recommendation a1 = Analysis.market_recommendation a2.
Proof.
  eexists _, _. split; [reflexivity |]. split; [reflexivity |].
  apply (analysis_order_independent Sample.batch (rev Sample.batch)).
  - apply Permutation_rev.
  - reflexivity.
  - reflexivity.
Defined.
